(** * QUEENS: stochastic optimizer core and BMFMC posterior statistics

    A shallow embedding of

    - [queens/stochastic_optimizers/_stochastic_optimizer.py]
      (gradient clipping, the iteration protocol [__next__], the
      convergence check), and
    - [pqueens/models/bmfmc_model.py]
      ([get_hf_training_data], [compute_pyhf_statistics],
      [_calculate_p_yhf_mean], [_calculate_p_yhf_var]).

    NumPy scalars are kept behind the interface [NpFloat].  It has two
    instances: [binary64], the IEEE-754 doubles of the kernel, on which
    the definitions run, and [xreal], the real numbers extended with NaN
    and the two infinities, on which arithmetic is exact. *)

From Stdlib Require Import Floats Uint63.
From Stdlib Require Import ZArith List Bool Lia Reals Lra.
Import ListNotations.

Set Implicit Arguments.
Set Warnings "-inexact-float".

(* ================================================================== *)
(** * NumPy scalars *)

Declare Scope np_scope.
Delimit Scope np_scope with np.

(** The operations of a NumPy float the two source files use.  [fltb],
    [fleb] and [feqb] are the comparisons [<], [<=] and [==]: all three are
    false as soon as one side is NaN. *)
Class NpFloat (F : Type) : Type := {
  fzero : F;
  fone : F;
  fnan : F;
  finf : F;
  fmax : F;              (* np.finfo(np.float64).max *)
  fpi : F;               (* np.pi *)
  fof_Z : Z -> F;        (* a Python int used in float arithmetic *)
  fadd : F -> F -> F;
  fsub : F -> F -> F;
  fmul : F -> F -> F;
  fdiv : F -> F -> F;
  fneg : F -> F;
  fabs : F -> F;
  fsqrt : F -> F;
  fltb : F -> F -> bool;
  fleb : F -> F -> bool;
  feqb : F -> F -> bool;
  fis_nan : F -> bool
}.

Infix "+" := fadd : np_scope.
Infix "-" := fsub : np_scope.
Infix "*" := fmul : np_scope.
Infix "/" := fdiv : np_scope.
Notation "- x" := (fneg x) : np_scope.
Infix "<?" := fltb : np_scope.
Infix "<=?" := fleb : np_scope.
Infix "=?" := feqb : np_scope.

(** A decimal literal of the source, [n / d] with [n] and [d] integers: on
    [binary64] the correctly rounded quotient of two exactly representable
    integers is the double the Python literal denotes. *)
Definition flit {F} `{NpFloat F} (n d : Z) : F := (fof_Z n / fof_Z d)%np.

(** ** IEEE-754 binary64 *)

Definition float_of_Z (z : Z) : float :=
  match z with
  | Z0 => PrimFloat.zero
  | Zpos _ => PrimFloat.of_uint63 (Uint63.of_Z z)
  | Zneg p => PrimFloat.opp (PrimFloat.of_uint63 (Uint63.of_Z (Zpos p)))
  end.

#[export] Instance binary64 : NpFloat float := {|
  fzero := PrimFloat.zero;
  fone := PrimFloat.one;
  fnan := PrimFloat.nan;
  finf := PrimFloat.infinity;
  fmax := 0x1.fffffffffffffp+1023%float;
  fpi := 0x1.921fb54442d18p+1%float;
  fof_Z := float_of_Z;
  fadd := PrimFloat.add;
  fsub := PrimFloat.sub;
  fmul := PrimFloat.mul;
  fdiv := PrimFloat.div;
  fneg := PrimFloat.opp;
  fabs := PrimFloat.abs;
  fsqrt := PrimFloat.sqrt;
  fltb := PrimFloat.ltb;
  fleb := PrimFloat.leb;
  feqb := PrimFloat.eqb;
  fis_nan := PrimFloat.is_nan
|}.

(** ** Exact arithmetic with NaN and infinities *)

Inductive xreal : Type :=
| XNaN
| XInf (negative : bool)
| XFin (r : R).

Definition Rltb (a b : R) : bool := if Rlt_dec a b then true else false.
Definition Rleb (a b : R) : bool := if Rle_dec a b then true else false.
Definition Reqb (a b : R) : bool := if Req_dec_T a b then true else false.

(** The sign an infinity takes when it is multiplied or divided by the
    finite [r]; a zero counts as [+0.0]. *)
Definition flip_by (s : bool) (r : R) : bool := if Rltb r 0 then negb s else s.

Definition xadd (x y : xreal) : xreal :=
  match x, y with
  | XNaN, _ | _, XNaN => XNaN
  | XInf s, XInf t => if Bool.eqb s t then XInf s else XNaN
  | XInf s, XFin _ | XFin _, XInf s => XInf s
  | XFin a, XFin b => XFin (a + b)
  end.

Definition xneg (x : xreal) : xreal :=
  match x with
  | XNaN => XNaN
  | XInf s => XInf (negb s)
  | XFin a => XFin (- a)
  end.

Definition xsub (x y : xreal) : xreal := xadd x (xneg y).

Definition xmul (x y : xreal) : xreal :=
  match x, y with
  | XNaN, _ | _, XNaN => XNaN
  | XInf s, XInf t => XInf (xorb s t)
  | XInf s, XFin r | XFin r, XInf s => if Reqb r 0 then XNaN else XInf (flip_by s r)
  | XFin a, XFin b => XFin (a * b)
  end.

Definition xdiv (x y : xreal) : xreal :=
  match x, y with
  | XNaN, _ | _, XNaN => XNaN
  | XInf _, XInf _ => XNaN
  | XInf s, XFin r => XInf (flip_by s r)
  | XFin _, XInf _ => XFin 0
  | XFin a, XFin b =>
      if Reqb b 0 then (if Reqb a 0 then XNaN else XInf (Rltb a 0))
      else XFin (a / b)
  end.

Definition xabs (x : xreal) : xreal :=
  match x with
  | XNaN => XNaN
  | XInf _ => XInf false
  | XFin a => XFin (Rabs a)
  end.

Definition xsqrt (x : xreal) : xreal :=
  match x with
  | XNaN => XNaN
  | XInf s => if s then XNaN else XInf false
  | XFin a => if Rltb a 0 then XNaN else XFin (R_sqrt.sqrt a)
  end.

Definition xltb (x y : xreal) : bool :=
  match x, y with
  | XNaN, _ | _, XNaN => false
  | XInf s, XInf t => s && negb t
  | XInf s, XFin _ => s
  | XFin _, XInf t => negb t
  | XFin a, XFin b => Rltb a b
  end.

Definition xleb (x y : xreal) : bool :=
  match x, y with
  | XNaN, _ | _, XNaN => false
  | XInf s, XInf t => s || negb t
  | XInf s, XFin _ => s
  | XFin _, XInf t => negb t
  | XFin a, XFin b => Rleb a b
  end.

Definition xeqb (x y : xreal) : bool :=
  match x, y with
  | XNaN, _ | _, XNaN => false
  | XInf s, XInf t => Bool.eqb s t
  | XInf _, XFin _ | XFin _, XInf _ => false
  | XFin a, XFin b => Reqb a b
  end.

Definition xis_nan (x : xreal) : bool :=
  match x with XNaN => true | _ => false end.

#[export] Instance exact : NpFloat xreal := {|
  fzero := XFin 0;
  fone := XFin 1;
  fnan := XNaN;
  finf := XInf false;
  fmax := XFin (IZR ((2 ^ 53 - 1) * 2 ^ 971));
  fpi := XFin PI;
  fof_Z := fun z => XFin (IZR z);
  fadd := xadd;
  fsub := xsub;
  fmul := xmul;
  fdiv := xdiv;
  fneg := xneg;
  fabs := xabs;
  fsqrt := xsqrt;
  fltb := xltb;
  fleb := xleb;
  feqb := xeqb;
  fis_nan := xis_nan
|}.

(* ================================================================== *)
(** * Gradient clipping *)

Section Clipping.
Context {F : Type} `{NpFloat F}.

(** [np.nan_to_num] with its defaults: NaN becomes [0.0], the infinities
    the largest finite doubles. *)
Definition nan_to_num1 (x : F) : F :=
  if fis_nan x then fzero
  else if (x =? finf)%np then fmax
  else if (x =? - finf)%np then (- fmax)%np
  else x.

Definition nan_to_num (v : list F) : list F := map nan_to_num1 v.

(** [np.maximum] and [np.minimum]: a NaN on either side is returned. *)
Definition np_maximum (a b : F) : F :=
  if fis_nan a then a else if fis_nan b then b
  else if (b <? a)%np then a else b.

Definition np_minimum (a b : F) : F :=
  if fis_nan a then a else if fis_nan b then b
  else if (a <? b)%np then a else b.

(** [np.clip(x, lo, hi)] is [np.minimum(np.maximum(x, lo), hi)]. *)
Definition np_clip1 (lo hi x : F) : F := np_minimum (np_maximum x lo) hi.

Definition np_clip (v : list F) (lo hi : F) : list F := map (np_clip1 lo hi) v.

(** [clip_by_value], lines 336-349. *)
Definition clip_by_value (gradient : list F) (threshold : F) : list F :=
  let gradient := nan_to_num gradient in
  np_clip gradient (- threshold)%np threshold.

(** [clip_by_l2_norm], lines 319-333.  [l2_norm] is imported from
    [queens.utils.iterative_averaging] and is an argument here. *)
Definition clip_by_l2_norm (l2_norm : list F -> F)
    (gradient : list F) (l2_norm_threshold : F) : list F :=
  let gradient := nan_to_num gradient in
  let gradient_l2_norm := l2_norm gradient in
  if (l2_norm_threshold <? gradient_l2_norm)%np
  then map (fun g => g / (gradient_l2_norm / l2_norm_threshold))%np gradient
  else gradient.

(** Modelled from the spec: the helper [l2_norm] of
    [queens.utils.iterative_averaging], "pure numeric helpers (L1/L2
    norm, ...)": the square root of the sum of the squares. *)
Definition sum_squares (v : list F) : F :=
  fold_left (fun acc x => acc + x * x)%np v fzero.

Definition l2_norm_model (v : list F) : F := fsqrt (sum_squares v).
End Clipping.

(* ================================================================== *)
(** * Python outcomes *)

(** The exceptions the modelled code raises. *)
Inductive exn : Type :=
| StopIteration
| ValueError_nan_parameters   (* "At least one of the variational parameters is NaN" *)
| ValueError_broadcast        (* operands could not be broadcast together *)
| ValueError_x_train_none     (* "The training input X_train cannot be 'None'!" *)
| RuntimeError_hf_source      (* "Please make sure to provide either ..." *)
| IndexError
| ZeroDivisionError
| AttributeError
| TypeError.

Inductive outcome (A : Type) : Type :=
| Returned (a : A)
| Raised (e : exn).
Arguments Returned {A} a.
Arguments Raised {A} e.

Definition bind {A B} (m : outcome A) (k : A -> outcome B) : outcome B :=
  match m with
  | Returned a => k a
  | Raised e => Raised e
  end.

Notation "x <- m ;; k" := (bind m (fun x => k))
  (at level 61, m at next level, right associativity).

Fixpoint zip_with {A B C} (f : A -> B -> C) (u : list A) (v : list B) : list C :=
  match u, v with
  | a :: u', b :: v' => f a b :: zip_with f u' v'
  | _, _ => []
  end.

(** An element-wise binary operation of two one-dimensional arrays, with
    NumPy's broadcasting: equal lengths, or one side of length one. *)
Definition broadcast2 {A B} (f : A -> A -> B) (u v : list A) : outcome (list B) :=
  if Nat.eqb (length u) (length v) then Returned (zip_with f u v)
  else match u, v with
       | [a], _ => Returned (map (f a) v)
       | _, [b] => Returned (map (fun x => f x b) u)
       | _, _ => Raised ValueError_broadcast
       end.

(* ================================================================== *)
(** * The stochastic optimizer *)

Section Optimizer.
Context {F : Type} `{NpFloat F}.

(** What the class leaves to others: the attributes a concrete scheme
    (a subclass) adds, the state of the caller's gradient function and of
    the learning-rate decay object. *)
Variables scheme_attrs gradient_fn decay_obj : Type.

(** The attributes of [StochasticOptimizer], lines 138-151.
    [gradient_calls] is a ghost attribute: the arguments the gradient
    function has been called with, latest first. *)
Record StochasticOptimizer : Type := {
  learning_rate : F;
  clip_by_l2_norm_threshold : F;
  clip_by_value_threshold : F;
  max_iteration : Z;
  precoefficient : Z;
  rel_l2_change_threshold : F;
  rel_l1_change_threshold : F;
  iteration : Z;
  done : bool;
  rel_l2_change : option F;
  rel_l1_change : option F;
  current_variational_parameters : option (list F);
  current_gradient_value : option (list F);
  gradient : option gradient_fn;
  learning_rate_decay : option decay_obj;
  scheme : scheme_attrs;
  gradient_calls : list (list F)
}.

(** The helpers of [queens.utils.iterative_averaging] (not part of the
    two modelled files) and the calls into collaborators. *)
Variable l2_norm : list F -> bool -> F.     (* l2_norm(x, averaged) *)
Variable l1_norm : list F -> bool -> F.     (* l1_norm(x, averaged) *)
Variable relative_change : list F -> list F -> (list F -> F) -> F.
Variable gradient_call : gradient_fn -> list F -> list F * gradient_fn.
Variable decay_call : decay_obj -> F -> list F -> list F -> F * decay_obj.
Variable scheme_specific_gradient :
  StochasticOptimizer -> list F -> list F * scheme_attrs.

(** [__init__], lines 109-151.  [optimization_type] is "min" or "max";
    [get_option] maps it to the sign -1 or 1. *)
Inductive optimization_type : Type := Min | Max.

Definition __init__ (learning_rate : F) (opt_type : optimization_type)
    (rel_l1_change_threshold rel_l2_change_threshold : F)
    (clip_by_l2_norm_threshold clip_by_value_threshold : F)
    (max_iteration : Z) (learning_rate_decay : option decay_obj)
    (scheme : scheme_attrs) : StochasticOptimizer :=
  {| learning_rate := learning_rate;
     clip_by_l2_norm_threshold := clip_by_l2_norm_threshold;
     clip_by_value_threshold := clip_by_value_threshold;
     max_iteration := max_iteration;
     precoefficient := match opt_type with Min => -1 | Max => 1 end;
     rel_l2_change_threshold := rel_l2_change_threshold;
     rel_l1_change_threshold := rel_l1_change_threshold;
     iteration := 0;
     done := false;
     rel_l2_change := None;
     rel_l1_change := None;
     current_variational_parameters := None;
     current_gradient_value := None;
     gradient := None;
     learning_rate_decay := learning_rate_decay;
     scheme := scheme;
     gradient_calls := [] |}.

(** The assignment [optimizer.current_variational_parameters = ...] a
    concrete scheme or the caller makes before iterating. *)
Definition set_current_variational_parameters (self : StochasticOptimizer)
    (parameters : list F) : StochasticOptimizer :=
  {| learning_rate := learning_rate self;
     clip_by_l2_norm_threshold := clip_by_l2_norm_threshold self;
     clip_by_value_threshold := clip_by_value_threshold self;
     max_iteration := max_iteration self;
     precoefficient := precoefficient self;
     rel_l2_change_threshold := rel_l2_change_threshold self;
     rel_l1_change_threshold := rel_l1_change_threshold self;
     iteration := iteration self;
     done := done self;
     rel_l2_change := rel_l2_change self;
     rel_l1_change := rel_l1_change self;
     current_variational_parameters := Some parameters;
     current_gradient_value := current_gradient_value self;
     gradient := gradient self;
     learning_rate_decay := learning_rate_decay self;
     scheme := scheme self;
     gradient_calls := gradient_calls self |}.

(** [set_gradient_function], lines 163-172. *)
Definition set_gradient_function (self : StochasticOptimizer)
    (gradient_function : gradient_fn) : StochasticOptimizer :=
  {| learning_rate := learning_rate self;
     clip_by_l2_norm_threshold := clip_by_l2_norm_threshold self;
     clip_by_value_threshold := clip_by_value_threshold self;
     max_iteration := max_iteration self;
     precoefficient := precoefficient self;
     rel_l2_change_threshold := rel_l2_change_threshold self;
     rel_l1_change_threshold := rel_l1_change_threshold self;
     iteration := iteration self;
     done := done self;
     rel_l2_change := rel_l2_change self;
     rel_l1_change := rel_l1_change self;
     current_variational_parameters := current_variational_parameters self;
     current_gradient_value := current_gradient_value self;
     gradient := Some gradient_function;
     learning_rate_decay := learning_rate_decay self;
     scheme := scheme self;
     gradient_calls := gradient_calls self |}.

(** The call [self.gradient(parameters)]: the function's new state is
    kept and the call is logged. *)
Definition record_gradient_call (self : StochasticOptimizer)
    (g : gradient_fn) (parameters : list F) : StochasticOptimizer :=
  {| learning_rate := learning_rate self;
     clip_by_l2_norm_threshold := clip_by_l2_norm_threshold self;
     clip_by_value_threshold := clip_by_value_threshold self;
     max_iteration := max_iteration self;
     precoefficient := precoefficient self;
     rel_l2_change_threshold := rel_l2_change_threshold self;
     rel_l1_change_threshold := rel_l1_change_threshold self;
     iteration := iteration self;
     done := done self;
     rel_l2_change := rel_l2_change self;
     rel_l1_change := rel_l1_change self;
     current_variational_parameters := current_variational_parameters self;
     current_gradient_value := current_gradient_value self;
     gradient := Some g;
     learning_rate_decay := learning_rate_decay self;
     scheme := scheme self;
     gradient_calls := parameters :: gradient_calls self |}.

(** [self.learning_rate = self.learning_rate_decay(...)], lines 239-243. *)
Definition set_learning_rate (self : StochasticOptimizer)
    (rate : F) (d : decay_obj) : StochasticOptimizer :=
  {| learning_rate := rate;
     clip_by_l2_norm_threshold := clip_by_l2_norm_threshold self;
     clip_by_value_threshold := clip_by_value_threshold self;
     max_iteration := max_iteration self;
     precoefficient := precoefficient self;
     rel_l2_change_threshold := rel_l2_change_threshold self;
     rel_l1_change_threshold := rel_l1_change_threshold self;
     iteration := iteration self;
     done := done self;
     rel_l2_change := rel_l2_change self;
     rel_l1_change := rel_l1_change self;
     current_variational_parameters := current_variational_parameters self;
     current_gradient_value := current_gradient_value self;
     gradient := gradient self;
     learning_rate_decay := Some d;
     scheme := scheme self;
     gradient_calls := gradient_calls self |}.

(** [self.current_gradient_value = current_gradient], line 246, with the
    attributes the scheme has updated. *)
Definition set_current_gradient_value (self : StochasticOptimizer)
    (current_gradient : list F) (s : scheme_attrs) : StochasticOptimizer :=
  {| learning_rate := learning_rate self;
     clip_by_l2_norm_threshold := clip_by_l2_norm_threshold self;
     clip_by_value_threshold := clip_by_value_threshold self;
     max_iteration := max_iteration self;
     precoefficient := precoefficient self;
     rel_l2_change_threshold := rel_l2_change_threshold self;
     rel_l1_change_threshold := rel_l1_change_threshold self;
     iteration := iteration self;
     done := done self;
     rel_l2_change := rel_l2_change self;
     rel_l1_change := rel_l1_change self;
     current_variational_parameters := current_variational_parameters self;
     current_gradient_value := Some current_gradient;
     gradient := gradient self;
     learning_rate_decay := learning_rate_decay self;
     scheme := s;
     gradient_calls := gradient_calls self |}.

Definition set_parameters (self : StochasticOptimizer)
    (parameters : list F) (it : Z) : StochasticOptimizer :=
  {| learning_rate := learning_rate self;
     clip_by_l2_norm_threshold := clip_by_l2_norm_threshold self;
     clip_by_value_threshold := clip_by_value_threshold self;
     max_iteration := max_iteration self;
     precoefficient := precoefficient self;
     rel_l2_change_threshold := rel_l2_change_threshold self;
     rel_l1_change_threshold := rel_l1_change_threshold self;
     iteration := it;
     done := done self;
     rel_l2_change := rel_l2_change self;
     rel_l1_change := rel_l1_change self;
     current_variational_parameters := Some parameters;
     current_gradient_value := current_gradient_value self;
     gradient := gradient self;
     learning_rate_decay := learning_rate_decay self;
     scheme := scheme self;
     gradient_calls := gradient_calls self |}.

Definition set_rel_change (self : StochasticOptimizer)
    (l2 l1 : F) : StochasticOptimizer :=
  {| learning_rate := learning_rate self;
     clip_by_l2_norm_threshold := clip_by_l2_norm_threshold self;
     clip_by_value_threshold := clip_by_value_threshold self;
     max_iteration := max_iteration self;
     precoefficient := precoefficient self;
     rel_l2_change_threshold := rel_l2_change_threshold self;
     rel_l1_change_threshold := rel_l1_change_threshold self;
     iteration := iteration self;
     done := done self;
     rel_l2_change := Some l2;
     rel_l1_change := Some l1;
     current_variational_parameters := current_variational_parameters self;
     current_gradient_value := current_gradient_value self;
     gradient := gradient self;
     learning_rate_decay := learning_rate_decay self;
     scheme := scheme self;
     gradient_calls := gradient_calls self |}.

Definition set_done (self : StochasticOptimizer) (b : bool)
    : StochasticOptimizer :=
  {| learning_rate := learning_rate self;
     clip_by_l2_norm_threshold := clip_by_l2_norm_threshold self;
     clip_by_value_threshold := clip_by_value_threshold self;
     max_iteration := max_iteration self;
     precoefficient := precoefficient self;
     rel_l2_change_threshold := rel_l2_change_threshold self;
     rel_l1_change_threshold := rel_l1_change_threshold self;
     iteration := iteration self;
     done := b;
     rel_l2_change := rel_l2_change self;
     rel_l1_change := rel_l1_change self;
     current_variational_parameters := current_variational_parameters self;
     current_gradient_value := current_gradient_value self;
     gradient := gradient self;
     learning_rate_decay := learning_rate_decay self;
     scheme := scheme self;
     gradient_calls := gradient_calls self |}.

(** [_compute_rel_change], lines 174-186. *)
Definition _compute_rel_change (self : StochasticOptimizer)
    (old_parameters new_parameters : list F) : StochasticOptimizer :=
  set_rel_change self
    (relative_change old_parameters new_parameters (fun x => l2_norm x true))
    (relative_change old_parameters new_parameters (fun x => l1_norm x true)).

(** [do_single_iteration], lines 188-203:
    [p + precoefficient * learning_rate * gradient], then
    [iteration += 1]. *)
Definition do_single_iteration (self : StochasticOptimizer)
    (gradient : list F) : outcome unit * StochasticOptimizer :=
  match current_variational_parameters self with
  | None => (Raised TypeError, self)
  | Some parameters =>
      let step :=
        map (fun g => (fof_Z (precoefficient self) * learning_rate self) * g)%np
            gradient in
      match broadcast2 fadd parameters step with
      | Raised e => (Raised e, self)
      | Returned parameters' =>
          (Returned tt, set_parameters self parameters' (iteration self + 1))
      end
  end.

(** [clip_gradient], lines 205-216: by value, then by norm. *)
Definition clip_gradient (self : StochasticOptimizer) (gradient : list F)
    : list F :=
  let gradient := clip_by_value gradient (clip_by_value_threshold self) in
  let gradient :=
    clip_by_l2_norm (fun v => l2_norm v false) gradient
                    (clip_by_l2_norm_threshold self) in
  gradient.

(** [_check_if_done], lines 264-274.  [and] and [or] evaluate their
    right operand only when the left one does not decide. *)
Definition _check_if_done (self : StochasticOptimizer)
    : outcome unit * StochasticOptimizer :=
  match current_variational_parameters self with
  | None => (Raised TypeError, self)
  | Some parameters =>
      if existsb fis_nan parameters
      then (Raised ValueError_nan_parameters, self)
      else
        let reached := (max_iteration self <=? iteration self)%Z in
        match rel_l2_change self with
        | None => (Raised TypeError, self)
        | Some l2 =>
            if (l2 <=? rel_l2_change_threshold self)%np
            then
              match rel_l1_change self with
              | None => (Raised TypeError, self)
              | Some l1 =>
                  (Returned tt,
                   set_done self
                     ((l1 <=? rel_l1_change_threshold self)%np || reached))
              end
            else (Returned tt, set_done self reached)
        end
  end.

(** [__next__], lines 218-250. *)
Definition __next__ (self : StochasticOptimizer)
    : outcome (list F) * StochasticOptimizer :=
  if done self then (Raised StopIteration, self)
  else
    match current_variational_parameters self with
    | None => (Raised AttributeError, self)
    | Some parameters =>
        let old_parameters := parameters in
        match gradient self with
        | None => (Raised TypeError, self)
        | Some g =>
            let (current_gradient, g') := gradient_call g parameters in
            let self := record_gradient_call self g' parameters in
            let self :=
              match learning_rate_decay self with
              | Some d =>
                  let (rate, d') :=
                    decay_call d (learning_rate self) parameters current_gradient in
                  set_learning_rate self rate d'
              | None => self
              end in
            let current_gradient := clip_gradient self current_gradient in
            let (current_gradient, s') :=
              scheme_specific_gradient self current_gradient in
            let self := set_current_gradient_value self current_gradient s' in
            match do_single_iteration self current_gradient with
            | (Raised e, self) => (Raised e, self)
            | (Returned _, self) =>
                match current_variational_parameters self with
                | None => (Raised TypeError, self)
                | Some new_parameters =>
                    let self :=
                      _compute_rel_change self old_parameters new_parameters in
                    match _check_if_done self with
                    | (Raised e, self) => (Raised e, self)
                    | (Returned _, self) =>
                        match current_variational_parameters self with
                        | None => (Raised TypeError, self)
                        | Some p => (Returned p, self)
                        end
                    end
                end
            end
        end
    end.

End Optimizer.

Arguments __init__ {F} {scheme_attrs gradient_fn decay_obj}.

(** ** Driving the optimizer *)

Section OptimizerLoop.
Context {F : Type} `{NpFloat F}.
Variables scheme_attrs gradient_fn decay_obj : Type.
Variable l2_norm : list F -> bool -> F.
Variable l1_norm : list F -> bool -> F.
Variable relative_change : list F -> list F -> (list F -> F) -> F.
Variable gradient_call : gradient_fn -> list F -> list F * gradient_fn.
Variable decay_call : decay_obj -> F -> list F -> list F -> F * decay_obj.
Variable scheme_specific_gradient :
  StochasticOptimizer (F:=F) scheme_attrs gradient_fn decay_obj ->
  list F -> list F * scheme_attrs.

(** [__iter__], lines 252-262. *)
Definition __iter__
    (self : StochasticOptimizer (F:=F) scheme_attrs gradient_fn decay_obj) :=
  self.

(** The statement [for _ in self: pass]: [__next__] is called until it
    raises [StopIteration], which ends the loop; any other exception
    leaves it.  The loop of the source has no bound: [fuel] is the number
    of calls allowed here, and [None] says it was not enough. *)
Fixpoint for_in_self (fuel : nat)
    (self : StochasticOptimizer (F:=F) scheme_attrs gradient_fn decay_obj)
    : option (outcome unit
              * StochasticOptimizer (F:=F) scheme_attrs gradient_fn decay_obj) :=
  match fuel with
  | O => None
  | S fuel' =>
      match __next__ l2_norm l1_norm relative_change gradient_call decay_call
                     scheme_specific_gradient self with
      | (Raised StopIteration, self') => Some (Returned tt, self')
      | (Raised e, self') => Some (Raised e, self')
      | (Returned _, self') => for_in_self fuel' self'
      end
  end.

(** [run_optimization], lines 276-284. *)
Definition run_optimization (fuel : nat)
    (self : StochasticOptimizer (F:=F) scheme_attrs gradient_fn decay_obj)
    : option (outcome (option (list F))
              * StochasticOptimizer (F:=F) scheme_attrs gradient_fn decay_obj) :=
  match for_in_self fuel (__iter__ self) with
  | None => None
  | Some (Raised e, self') => Some (Raised e, self')
  | Some (Returned _, self') =>
      Some (Returned (current_variational_parameters self'), self')
  end.
End OptimizerLoop.

(* ================================================================== *)
(** * The BMFMC model *)

Section BMFMC.
Context {F : Type} `{NpFloat F}.

(** Collaborators: the high-fidelity model and the probabilistic-mapping
    interface.  Library functions: [scipy.stats.norm.pdf(x, loc, scale)],
    [np.exp] and [np.log]. *)
Variables hf_model bmfmc_interface : Type.
Variable hf_evaluate : hf_model -> list (list F) -> list (list F) * hf_model.
Variable interface_evaluate :
  bmfmc_interface -> list (list F) -> list F * list (list F).
Variable norm_pdf : F -> F -> F -> F.
Variables np_exp np_log : F -> F.

(** The attributes of [BMFMCModel] the modelled methods touch,
    lines 167-194.  [m_f_mc] and [var_y_mc] are the (n, 1) columns of the
    source, kept as the list of their entries; the arrays that
    [load_sampling_data] and [run_BMFMC] always set are taken as set. *)
Record BMFMCModel : Type := {
  interface : bmfmc_interface;
  high_fidelity_model : option hf_model;
  X_train : option (list (list F));
  Y_HF_train : option (list (list F));
  X_mc : list (list F);
  Y_HF_mc : option (list F);
  Z_mc : list (list F);
  m_f_mc : list F;
  var_y_mc : list F;
  p_yhf_mean : option (list F);
  p_yhf_var : option (list F);
  predictive_var_bool : bool;
  y_pdf_support : list F
}.

Definition set_Y_HF_train (self : BMFMCModel) (hf : option hf_model)
    (y : list (list F)) : BMFMCModel :=
  {| interface := interface self;
     high_fidelity_model := hf;
     X_train := X_train self;
     Y_HF_train := Some y;
     X_mc := X_mc self;
     Y_HF_mc := Y_HF_mc self;
     Z_mc := Z_mc self;
     m_f_mc := m_f_mc self;
     var_y_mc := var_y_mc self;
     p_yhf_mean := p_yhf_mean self;
     p_yhf_var := p_yhf_var self;
     predictive_var_bool := predictive_var_bool self;
     y_pdf_support := y_pdf_support self |}.

Definition set_p_yhf_mean (self : BMFMCModel) (p : list F) : BMFMCModel :=
  {| interface := interface self;
     high_fidelity_model := high_fidelity_model self;
     X_train := X_train self;
     Y_HF_train := Y_HF_train self;
     X_mc := X_mc self;
     Y_HF_mc := Y_HF_mc self;
     Z_mc := Z_mc self;
     m_f_mc := m_f_mc self;
     var_y_mc := var_y_mc self;
     p_yhf_mean := Some p;
     p_yhf_var := p_yhf_var self;
     predictive_var_bool := predictive_var_bool self;
     y_pdf_support := y_pdf_support self |}.

Definition set_p_yhf_var (self : BMFMCModel) (p : option (list F))
    : BMFMCModel :=
  {| interface := interface self;
     high_fidelity_model := high_fidelity_model self;
     X_train := X_train self;
     Y_HF_train := Y_HF_train self;
     X_mc := X_mc self;
     Y_HF_mc := Y_HF_mc self;
     Z_mc := Z_mc self;
     m_f_mc := m_f_mc self;
     var_y_mc := var_y_mc self;
     p_yhf_mean := p_yhf_mean self;
     p_yhf_var := p;
     predictive_var_bool := predictive_var_bool self;
     y_pdf_support := y_pdf_support self |}.

(** ** [get_hf_training_data], lines 413-463 *)

(** [np.where(np.all(X_mc == row, axis=1))[0]]: the indices, in
    increasing order, of the rows of [X_mc] whose entries all compare
    equal with [row]. *)
Fixpoint where_all_equal (X : list (list F)) (row : list F) (index : nat)
    : outcome (list nat) :=
  match X with
  | [] => Returned []
  | r :: X' =>
      eqs <- broadcast2 feqb r row ;;
      rest <- where_all_equal X' row (S index) ;;
      Returned (if forallb (fun b => b) eqs then index :: rest else rest)
  end.

(** [a[0]] on a one-dimensional array. *)
Definition first {A} (a : list A) : outcome A :=
  match a with
  | [] => Raised IndexError
  | x :: _ => Returned x
  end.

Definition getitem {A} (a : list A) (index : nat) : outcome A :=
  match nth_error a index with
  | Some x => Returned x
  | None => Raised IndexError
  end.

Fixpoint mapM {A B} (f : A -> outcome B) (l : list A) : outcome (list B) :=
  match l with
  | [] => Returned []
  | a :: l' => b <- f a ;; bs <- mapM f l' ;; Returned (b :: bs)
  end.

Definition get_hf_training_data (self : BMFMCModel) : outcome BMFMCModel :=
  match X_train self with
  | None => Raised ValueError_x_train_none
  | Some x_train =>
      match high_fidelity_model self, Y_HF_mc self with
      | Some hf, None =>
          let (response_mean, hf') := hf_evaluate hf x_train in
          Returned (set_Y_HF_train self (Some hf') response_mean)
      | None, Some y_hf_mc =>
          (* enumerate(self.X_train[:, 0]) needs a first column *)
          _ <- mapM (fun row => first row) x_train ;;
          index_rows <-
            mapM (fun row => idx <- where_all_equal (X_mc self) row 0 ;;
                             first idx) x_train ;;
          y <- mapM (fun index => getitem y_hf_mc index) index_rows ;;
          Returned
            (set_Y_HF_train self (high_fidelity_model self)
                            (map (fun v => [v]) y))
      | _, _ => Raised RuntimeError_hf_source
      end
  end.

(** ** [_calculate_p_yhf_mean], lines 507-512 *)

Definition zeros (n : nat) : list F := repeat fzero n.

(** [np.sum(mat, axis=0)] of a matrix with [width] columns. *)
Definition sum_axis0 (width : nat) (mat : list (list F)) : list F :=
  fold_left (fun acc row => zip_with fadd acc row) mat (zeros width).

Definition _calculate_p_yhf_mean (self : BMFMCModel) : outcome BMFMCModel :=
  let standard_deviation := map fsqrt (var_y_mc self) in
  params <- broadcast2 pair (m_f_mc self) standard_deviation ;;
  let pdf_mat :=
    map (fun '(loc, scale) =>
           map (fun y => norm_pdf y loc scale) (y_pdf_support self)) params in
  let pyhf_mean_vec := sum_axis0 (length (y_pdf_support self)) pdf_mat in
  let size := Z.of_nat (length (m_f_mc self)) in
  if (size =? 0)%Z then Raised ZeroDivisionError
  else
    Returned
      (set_p_yhf_mean self
         (map (fun v => fof_Z 1 / fof_Z size * v)%np pyhf_mean_vec)).

(** ** [_calculate_p_yhf_var], lines 514-565 *)

(** Lines 543-561 for one pair: the values [np.exp(args)] added to
    [yhf_pdf_grid], one per support point. *)
Definition pair_density (support : list F)
    (mean1 var1 mean2 var2 covariance : F) : list F :=
  let det_sigma := (var1 * var2 - covariance * covariance)%np in
  let '(det_sigma, covariance) :=
    if (det_sigma <? fof_Z 0)%np
    then (flit 1 1000000, (flit 95 100 * covariance)%np)
    else (det_sigma, covariance) in
  let s := (fof_Z 1 / det_sigma)%np in
  let inv00 := (s * var2)%np in
  let inv01 := (s * - covariance)%np in
  let inv10 := (s * - covariance)%np in
  let inv11 := (s * var1)%np in
  let c := fsqrt (fof_Z 4 * (fpi * fpi) * det_sigma)%np in
  map (fun y =>
         let d1 := (y - mean1)%np in
         let d2 := (y - mean2)%np in
         let a1 := (d1 * inv00 + d2 * inv10)%np in
         let a2 := (d1 * inv01 + d2 * inv11)%np in
         let b := (a1 * d1 + a2 * d2)%np in
         let args := (- flit 1 2 * b + np_log (fof_Z 1 / c))%np in
         let args := if (fof_Z 40 <? args)%np then fof_Z 40 else args in
         np_exp args)
      support.

(** The loop state: the counter [i], [yhf_pdf_grid] and the object. *)
Record var_state : Type := {
  counter : Z;
  yhf_pdf_grid : list F;
  model : BMFMCModel
}.

(** Lines 540-565: the body of the inner loop, [num2] as [enumerate]
    gives it. *)
Definition var_body (k_post : list (list F)) (st : var_state)
    (num1 : nat) (mean1 var1 : F) (num2 : nat) (mean2 var2 : F)
    : outcome var_state :=
  let num2 := (num1 + num2)%nat in
  row <- getitem k_post num1 ;;
  covariance <- getitem row num2 ;;
  let density :=
    pair_density (y_pdf_support (model st)) mean1 var1 mean2 var2 covariance in
  grid <- broadcast2 fadd (yhf_pdf_grid st) density ;;
  let i := (counter st + 1)%Z in
  if (i - 1 =? 0)%Z then Raised ZeroDivisionError
  else
    match p_yhf_mean (model st) with
    | None => Raised TypeError
    | Some mean =>
        var <- broadcast2 fsub
                 (map (fun g => fof_Z 1 / fof_Z (i - 1) * g)%np grid)
                 (map (fun m => flit 9995 10000 * (m * m))%np mean) ;;
        Returned {| counter := i;
                    yhf_pdf_grid := grid;
                    model := set_p_yhf_var (model st) (Some var) |}
    end.

Fixpoint var_inner_loop (k_post : list (list F)) (st : var_state)
    (num1 : nat) (mean1 var1 : F) (num2 : nat) (rest : list (F * F))
    : outcome var_state :=
  match rest with
  | [] => Returned st
  | (mean2, var2) :: rest' =>
      st' <- var_body k_post st num1 mean1 var1 num2 mean2 var2 ;;
      var_inner_loop k_post st' num1 mean1 var1 (S num2) rest'
  end.

Fixpoint var_outer_loop (k_post : list (list F)) (f_mean_pred yhf_var_pred : list F)
    (st : var_state) (num1 : nat) (rest : list (F * F)) : outcome var_state :=
  match rest with
  | [] => Returned st
  | (mean1, var1) :: rest' =>
      st' <- var_inner_loop k_post st num1 mean1 var1 0
               (combine (skipn (num1 + 1) f_mean_pred)
                        (skipn (num1 + 1) yhf_var_pred)) ;;
      var_outer_loop k_post f_mean_pred yhf_var_pred st' (S num1) rest'
  end.

Definition _calculate_p_yhf_var (self : BMFMCModel) : outcome BMFMCModel :=
  let (_, k_post) := interface_evaluate (interface self) (Z_mc self) in
  let f_mean_pred := m_f_mc self in
  let yhf_var_pred := var_y_mc self in
  let st := {| counter := 1;
               yhf_pdf_grid := zeros (length (y_pdf_support self));
               model := self |} in
  st' <- var_outer_loop k_post f_mean_pred yhf_var_pred st 0
           (combine f_mean_pred yhf_var_pred) ;;
  Returned (model st').

(** ** [compute_pyhf_statistics], lines 490-505 *)
Definition compute_pyhf_statistics (self : BMFMCModel) : outcome BMFMCModel :=
  self <- _calculate_p_yhf_mean self ;;
  if predictive_var_bool self
  then _calculate_p_yhf_var self
  else Returned (set_p_yhf_var self None).
End BMFMC.

(* ================================================================== *)
(** * Vocabulary of the statements and concrete inputs *)

Section Vocabulary.
Context {F : Type} `{NpFloat F}.

(** No component of [out] is larger in absolute value than the component
    of [v] it comes from: the comparison [|v_k| < |out_k|] is false. *)
Definition never_increases (v out : list F) : Prop :=
  Forall2 (fun x y => (fabs x <? fabs y)%np = false) v out.

(** Modelled from the spec: the helpers [l2_norm], [l1_norm] and
    [relative_change] of [queens.utils.iterative_averaging], "pure
    numeric helpers (L1/L2 norm, relative change, ...)".  With
    [averaged] the norm is divided by the (root of the) number of
    entries. *)
Definition l2_norm_spec (v : list F) (averaged : bool) : F :=
  let norm := l2_norm_model v in
  if averaged then (norm / fsqrt (fof_Z (Z.of_nat (length v))))%np else norm.

Definition l1_norm_spec (v : list F) (averaged : bool) : F :=
  let norm := fold_left (fun acc x => acc + fabs x)%np v fzero in
  if averaged then (norm / fof_Z (Z.of_nat (length v)))%np else norm.

Definition relative_change_spec (old_estimate new_estimate : list F)
    (norm : list F -> F) : F :=
  (norm (zip_with fsub new_estimate old_estimate) / norm old_estimate)%np.

(** Plain gradient descent: the scheme hands the clipped gradient on. *)
Definition plain_scheme (self : StochasticOptimizer (F:=F) unit unit unit)
    (gradient : list F) : list F * unit := (gradient, tt).

(** The gradient of [f(x) = x^2]. *)
Definition quadratic_gradient (g : unit) (x : list F) : list F * unit :=
  (map (fun c => fof_Z 2 * c)%np x, g).

Definition no_decay (d : unit) (rate : F) (x gradient : list F) : F * unit :=
  (rate, d).

(** An optimizer that minimises [x^2] from [x = 3] with learning rate
    [0.1], both clipping thresholds given. *)
Definition quadratic_optimizer (clip_l2 clip_value : F)
    : StochasticOptimizer (F:=F) unit unit unit :=
  set_current_variational_parameters
    (set_gradient_function
       (__init__ (flit 1 10) Min (flit 1 1000) (flit 1 1000)
                 clip_l2 clip_value 1000000 None tt)
       tt)
    [fof_Z 3].

Definition quadratic_next :=
  __next__ l2_norm_spec l1_norm_spec relative_change_spec
           quadratic_gradient no_decay plain_scheme.
End Vocabulary.

(** The same optimizer once its [done] flag is set. *)
Definition finished_optimizer : StochasticOptimizer (F:=float) unit unit unit :=
  set_done (quadratic_optimizer PrimFloat.infinity PrimFloat.infinity) true.

(** [x] is finite and its magnitude is at most that of [y], when [y] is
    finite too. *)
Definition shrinks (y x : xreal) : Prop :=
  exists r, x = XFin r /\ forall q, y = XFin q -> (Rabs r <= Rabs q)%R.

Section BMFMCVocabulary.
Context {F : Type} `{NpFloat F}.

(** The sum over the evaluation points of the Gaussian densities
    [N(y; m_i, sqrt(v_i))] at the support point [y]. *)
Definition gaussian_sum (norm_pdf : F -> F -> F -> F)
    (means variances : list F) (y : F) : F :=
  fold_left (fun acc '(m, v) => acc + norm_pdf y m (fsqrt v))%np
            (combine means variances) fzero.

(** The unordered pairs [(i, j)], [i < j < n], in the order of the double
    loop. *)
Definition pairs (n : nat) : list (nat * nat) :=
  flat_map (fun i => map (pair i) (seq (S i) (n - S i))) (seq 0 n).

(** What the loop body adds to the grid for the pair [(i, j)]: the
    covariance it reads is [k_post[i][j - 1]]. *)
Definition pair_term (np_exp np_log : F -> F) (support means variances : list F)
    (k_post : list (list F)) (ij : nat * nat) : list F :=
  let (i, j) := ij in
  pair_density np_exp np_log support
    (nth i means fzero) (nth i variances fzero)
    (nth j means fzero) (nth j variances fzero)
    (nth (j - 1) (nth i k_post []) fzero).

(** The grid accumulated over a list of pairs. *)
Definition accumulated (np_exp np_log : F -> F) (support means variances : list F)
    (k_post : list (list F)) (ps : list (nat * nat)) : list F :=
  fold_left
    (fun grid ij =>
       zip_with fadd grid (pair_term np_exp np_log support means variances k_post ij))
    ps (zeros (length support)).

(** [1 / count * grid - 0.9995 * mean ** 2], entry by entry. *)
Definition variance_density (count : Z) (grid mean : list F) : list F :=
  zip_with (fun g m => fof_Z 1 / fof_Z count * g - flit 9995 10000 * (m * m))%np
           grid mean.

(** Two rows are equal entry by entry. *)
Fixpoint rows_equal (r row : list F) : bool :=
  match r, row with
  | [], [] => true
  | a :: r', b :: row' => (a =? b)%np && rows_equal r' row'
  | _, _ => false
  end.

(** The index of the first row of [X] equal to [row], counted from
    [index]. *)
Fixpoint first_equal_row (X : list (list F)) (row : list F) (index : nat)
    : option nat :=
  match X with
  | [] => None
  | r :: X' =>
      if rows_equal r row then Some index
      else first_equal_row X' row (S index)
  end.
(** Exactly one of the two sources of high-fidelity data is there. *)
Definition exactly_one_source {hf_model bmfmc_interface : Type}
    (self : BMFMCModel (F:=F) hf_model bmfmc_interface) : Prop :=
  (high_fidelity_model self <> None /\ Y_HF_mc self = None) \/
  (high_fidelity_model self = None /\ Y_HF_mc self <> None).

(** Row [row] of [X_train] has an equal row in [X_mc], and [y] is the
    reference output at the index of the first one. *)
Definition matched {hf_model bmfmc_interface : Type}
    (self : BMFMCModel (F:=F) hf_model bmfmc_interface) (y_hf_mc : list F) (row : list F) (y : F)
    : Prop :=
  exists index,
    first_equal_row (X_mc self) row 0 = Some index /\
    nth_error y_hf_mc index = Some y.


(** The loop state of [_calculate_p_yhf_var] once the pairs [ps] have been
    processed, [mean] being the posterior mean density. *)
Definition state_after {hf_model bmfmc_interface : Type}
    (np_exp np_log : F -> F)
    (self : BMFMCModel (F:=F) hf_model bmfmc_interface)
    (mean : list F) (k_post : list (list F)) (ps : list (nat * nat))
    : var_state hf_model bmfmc_interface :=
  let grid :=
    accumulated np_exp np_log (y_pdf_support self) (m_f_mc self)
                (var_y_mc self) k_post ps in
  {| counter := 1 + Z.of_nat (length ps);
     yhf_pdf_grid := grid;
     model := match ps with
              | [] => self
              | _ :: _ =>
                  set_p_yhf_var self
                    (Some (variance_density (Z.of_nat (length ps)) grid mean))
              end |}.
End BMFMCVocabulary.

Arguments state_after : simpl never.

(** ** Library functions in exact arithmetic *)

Definition xexp (x : xreal) : xreal :=
  match x with
  | XNaN => XNaN
  | XInf s => if s then XFin 0 else XInf false
  | XFin a => XFin (exp a)
  end.

Definition xlog (x : xreal) : xreal :=
  match x with
  | XNaN => XNaN
  | XInf s => if s then XNaN else XInf false
  | XFin a => if Rltb a 0 then XNaN
              else if Reqb a 0 then XInf true else XFin (ln a)
  end.

(** The Gaussian density on finite arguments with a positive scale; NaN
    anywhere else. *)
Definition xnorm_pdf (y loc scale : xreal) : xreal :=
  match y, loc, scale with
  | XFin y, XFin m, XFin s =>
      if Rltb 0 s
      then XFin (exp (- ((y - m) / s) ^ 2 / 2) / (s * R_sqrt.sqrt (2 * PI)))
      else XNaN
  | _, _, _ => XNaN
  end.

(** ** Concrete models *)

(** A model with Monte-Carlo points of means [m] and variances [v], the
    posterior covariance [k] and the support [y], nothing computed yet. *)
Definition bmfmc_model {F} (m v : list F) (k : list (list F)) (y : list F)
    (flag : bool) : BMFMCModel (F:=F) unit (list (list F)) :=
  {| interface := k;
     high_fidelity_model := None;
     X_train := None;
     Y_HF_train := None;
     X_mc := [];
     Y_HF_mc := None;
     Z_mc := [];
     m_f_mc := m;
     var_y_mc := v;
     p_yhf_mean := None;
     p_yhf_var := None;
     predictive_var_bool := flag;
     y_pdf_support := y |}.

(** An interface that returns the covariance it holds. *)
Definition stored_covariance {F} (k : list (list F)) (z : list (list F))
    : list F * list (list F) := ([], k).

(** A model whose only source of high-fidelity data is the reference
    output [y_hf], with the Monte-Carlo inputs [x_mc] and the training
    inputs [x_train]. *)
Definition reference_model {F} (x_mc x_train : list (list F)) (y_hf : list F)
    : BMFMCModel (F:=F) unit (list (list F)) :=
  {| interface := [];
     high_fidelity_model := None;
     X_train := Some x_train;
     Y_HF_train := None;
     X_mc := x_mc;
     Y_HF_mc := Some y_hf;
     Z_mc := [];
     m_f_mc := [];
     var_y_mc := [];
     p_yhf_mean := None;
     p_yhf_var := None;
     predictive_var_bool := false;
     y_pdf_support := [] |}.

Definition no_hf_model {F} (hf : unit) (x : list (list F))
    : list (list F) * unit := ([], hf).

(* ================================================================== *)
(** * Properties of the optimizer step *)

Lemma zip_with_length {A B C} (f : A -> B -> C) (u : list A) (v : list B) :
  length u = length v -> length (zip_with f u v) = length u.
Proof.
  revert v; induction u as [|a u IH]; intros [|b v] E; simpl in *;
    try discriminate; auto.
Qed.

Lemma broadcast2_same_length {A B} (f : A -> A -> B) (u v : list A) :
  length u = length v -> broadcast2 f u v = Returned (zip_with f u v).
Proof.
  intros E. unfold broadcast2. rewrite E, Nat.eqb_refl. reflexivity.
Qed.

Section ClippingShape.
Context {F : Type} `{NpFloat F}.

Lemma nan_to_num_length (v : list F) : length (nan_to_num v) = length v.
Proof. apply length_map. Qed.

Lemma clip_by_value_length (v : list F) (t : F) :
  length (clip_by_value v t) = length v.
Proof.
  unfold clip_by_value, np_clip. now rewrite length_map, nan_to_num_length.
Qed.

Lemma clip_by_l2_norm_length (norm : list F -> F) (v : list F) (t : F) :
  length (clip_by_l2_norm norm v t) = length v.
Proof.
  unfold clip_by_l2_norm.
  destruct (fltb t (norm (nan_to_num v)));
    now rewrite ?length_map, nan_to_num_length.
Qed.
End ClippingShape.

Section OptimizerFacts.
Context {F : Type} `{NpFloat F}.
Variables scheme_attrs gradient_fn decay_obj : Type.
Abbreviation optimizer := (StochasticOptimizer (F:=F) scheme_attrs gradient_fn decay_obj).
Variable l2_norm : list F -> bool -> F.
Variable l1_norm : list F -> bool -> F.
Variable relative_change : list F -> list F -> (list F -> F) -> F.
Variable gradient_call : gradient_fn -> list F -> list F * gradient_fn.
Variable decay_call : decay_obj -> F -> list F -> list F -> F * decay_obj.
Variable scheme_specific_gradient : optimizer -> list F -> list F * scheme_attrs.

Abbreviation next :=
  (__next__ l2_norm l1_norm relative_change gradient_call decay_call
            scheme_specific_gradient).

Lemma clip_gradient_length (self : optimizer) (v : list F) :
  length (clip_gradient l2_norm self v) = length v.
Proof.
  unfold clip_gradient. now rewrite clip_by_l2_norm_length, clip_by_value_length.
Qed.

(** What [_check_if_done] leaves behind when it returns. *)
Lemma check_if_done_returned (self self' : optimizer) :
  _check_if_done self = (Returned tt, self') ->
  exists p l2,
    current_variational_parameters self = Some p /\
    existsb fis_nan p = false /\
    rel_l2_change self = Some l2 /\
    ((l2 <=? rel_l2_change_threshold self)%np = true ->
       exists l1, rel_l1_change self = Some l1 /\
         self' = set_done self
                   ((l1 <=? rel_l1_change_threshold self)%np
                    || (max_iteration self <=? iteration self)%Z)) /\
    ((l2 <=? rel_l2_change_threshold self)%np = false ->
       self' = set_done self (max_iteration self <=? iteration self)%Z).
Proof.
  unfold _check_if_done.
  destruct (current_variational_parameters self) as [p|]; [|discriminate].
  destruct (existsb fis_nan p) eqn:En; [discriminate|].
  destruct (rel_l2_change self) as [l2|]; [|discriminate].
  destruct (fleb l2 (rel_l2_change_threshold self)) eqn:E2.
  - destruct (rel_l1_change self) as [l1|]; [|discriminate].
    intros [= <-]. exists p, l2. do 3 (split; [easy|]). split; [|congruence].
    intros _. now exists l1.
  - intros [= <-]. exists p, l2. do 3 (split; [easy|]). split; [congruence|easy].
Qed.

(** ** C6 *)

(** C6.  When [done] is true, a further step raises [StopIteration] and
    returns the optimizer it was given: the parameters, the iteration
    count, the learning rate, the gradient value, the relative changes and
    the done flag are those of before, and so is the log of the calls of
    the gradient function, which has therefore not been called. *)
Theorem next_when_done_stops (self : optimizer) :
  done self = true ->
  __next__ l2_norm l1_norm relative_change gradient_call decay_call
    scheme_specific_gradient self = (Raised StopIteration, self).
Proof.
  intros Hd. unfold __next__. now rewrite Hd.
Qed.

(** ** C3 *)

(** C3.  After a step that returns, [done] is true exactly when both
    relative changes are at or below their thresholds or the iteration
    count has reached [max_iteration]; the two relative changes are those
    of the parameters before the step and the parameters returned. *)
Theorem next_done_flag (self self' : optimizer) (p' : list F) :
  __next__ l2_norm l1_norm relative_change gradient_call decay_call
    scheme_specific_gradient self = (Returned p', self') ->
  exists old l2 l1,
    current_variational_parameters self = Some old /\
    current_variational_parameters self' = Some p' /\
    rel_l2_change self' = Some l2 /\
    l2 = relative_change old p' (fun x => l2_norm x true) /\
    rel_l1_change self' = Some l1 /\
    l1 = relative_change old p' (fun x => l1_norm x true) /\
    (done self' = true <->
     ((l2 <=? rel_l2_change_threshold self')%np = true /\
      (l1 <=? rel_l1_change_threshold self')%np = true) \/
     (max_iteration self' <= iteration self')%Z).
Proof.
  unfold __next__.
  destruct (done self); [discriminate|].
  destruct (current_variational_parameters self) as [old|]; [|discriminate].
  destruct (gradient self) as [g|]; [|discriminate].
  destruct (gradient_call g old) as [cg g'].
  set (self2 := match learning_rate_decay _ with Some _ => _ | None => _ end).
  destruct (scheme_specific_gradient self2 _) as [cg3 s'].
  set (self3 := set_current_gradient_value self2 cg3 s').
  destruct (do_single_iteration self3 cg3) as [[[]|e] self4]; [|discriminate].
  destruct (current_variational_parameters self4) as [new|] eqn:Enew;
    [|discriminate].
  destruct (_check_if_done _) as [[[]|e] self6] eqn:Echk; [|discriminate].
  destruct (current_variational_parameters self6) as [q|] eqn:Eq; [|discriminate].
  intros E. injection E as Eq1 Eq2. subst q self'.
  apply check_if_done_returned in Echk.
  destruct Echk as (p & l2 & Hp & _ & Hl2 & Hle & Hgt).
  simpl in Hp, Hl2. rewrite Enew in Hp. injection Hp as <-. injection Hl2 as <-.
  simpl in Hle, Hgt.
  set (l2 := relative_change old new (fun x => l2_norm x true)) in *.
  set (l1 := relative_change old new (fun x => l1_norm x true)) in *.
  exists old, l2, l1.
  split; [reflexivity|].
  destruct (fleb l2 (rel_l2_change_threshold self4)) eqn:E2.
  - destruct (Hle eq_refl) as (l1' & E1 & ->). injection E1 as <-.
    simpl in Eq. rewrite Enew in Eq. injection Eq as <-. simpl.
    split; [exact Enew|]. do 4 (split; [reflexivity|]). rewrite E2.
    rewrite orb_true_iff, Z.leb_le. tauto.
  - rewrite (Hgt eq_refl) in *.
    simpl in Eq. rewrite Enew in Eq. injection Eq as <-. simpl.
    split; [exact Enew|]. do 4 (split; [reflexivity|]). rewrite E2, Z.leb_le.
    split; [auto|]. intros [[? _]|?]; [discriminate|auto].
Qed.

(** ** C7 *)


End OptimizerFacts.

(* ================================================================== *)
(** * Properties of gradient clipping *)

Lemma nan_to_num1_nan {F} `{NpFloat F} (x : F) :
  fis_nan x = true -> nan_to_num1 x = fzero.
Proof. intros E. unfold nan_to_num1. now rewrite E. Qed.

(** ** Exact arithmetic *)

Lemma Rltb_true (a b : R) : Rltb a b = true <-> (a < b)%R.
Proof. unfold Rltb. destruct (Rlt_dec a b); split; auto; discriminate. Qed.

Lemma Rltb_false (a b : R) : Rltb a b = false <-> (b <= a)%R.
Proof.
  unfold Rltb. destruct (Rlt_dec a b); split; auto; try discriminate; lra.
Qed.

Lemma Rleb_true (a b : R) : Rleb a b = true <-> (a <= b)%R.
Proof. unfold Rleb. destruct (Rle_dec a b); split; auto; discriminate. Qed.

Lemma Reqb_true (a b : R) : Reqb a b = true <-> a = b.
Proof. unfold Reqb. destruct (Req_dec_T a b); split; auto; discriminate. Qed.

Lemma Reqb_false (a b : R) : Reqb a b = false <-> a <> b.
Proof.
  unfold Reqb. destruct (Req_dec_T a b); split; auto; try discriminate.
  contradiction.
Qed.

Lemma shrinks_trans (z y x : xreal) :
  shrinks z y -> shrinks y x -> shrinks z x.
Proof.
  intros (q & -> & Hq) (r & -> & Hr).
  exists r. split; [reflexivity|]. intros p Hp.
  specialize (Hq p Hp). specialize (Hr q eq_refl). lra.
Qed.

Lemma shrinks_no_increase (y x : xreal) :
  shrinks y x -> xltb (xabs y) (xabs x) = false.
Proof.
  intros (r & -> & Hr). destruct y as [|s|q]; simpl; auto.
  apply Rltb_false. auto.
Qed.

Lemma nan_to_num1_exact (x : xreal) :
  shrinks x (nan_to_num1 x) /\ (forall q, x = XFin q -> nan_to_num1 x = x).
Proof.
  destruct x as [|s|q]; unfold nan_to_num1, shrinks; simpl.
  - split; [|discriminate]. exists 0%R. split; auto. discriminate.
  - split; [|discriminate].
    destruct s; simpl; eexists; (split; [reflexivity|discriminate]).
  - split; [|reflexivity]. exists q. split; auto. intros ? [= <-]. lra.
Qed.

Lemma np_clip1_exact (t : xreal) (q : R) :
  xleb (XFin 0) t = true ->
  shrinks (XFin q) (np_clip1 (xneg t) t (XFin q)).
Proof.
  intros Ht. unfold np_clip1, np_maximum, np_minimum, shrinks.
  destruct t as [|s|t]; simpl in *; try discriminate.
  - destruct s; [discriminate|]. simpl.
    exists q. split; auto. intros ? [= <-]. lra.
  - apply Rleb_true in Ht.
    destruct (Rltb (- t) q) eqn:E1; simpl.
    + apply Rltb_true in E1.
      destruct (Rltb q t) eqn:E2; eexists; (split; [reflexivity|]);
        intros ? [= <-]; [lra|].
      apply Rltb_false in E2. rewrite (Rabs_right t), (Rabs_right q); lra.
    + apply Rltb_false in E1.
      destruct (Rltb (- t) t) eqn:E2; eexists; (split; [reflexivity|]);
        intros ? [= <-].
      * rewrite Rabs_Ropp, (Rabs_right t), (Rabs_left1 q); lra.
      * apply Rltb_false in E2. assert (t = 0)%R by lra. subst t.
        rewrite Rabs_R0. apply Rabs_pos.
Qed.

Lemma clip_by_value_exact (v : list xreal) (t : xreal) :
  xleb (XFin 0) t = true -> Forall2 shrinks v (clip_by_value v t).
Proof.
  intros Ht. unfold clip_by_value, np_clip, nan_to_num. rewrite map_map.
  induction v as [|x v IH]; simpl; constructor; auto.
  destruct (nan_to_num1_exact x) as [Hx _].
  apply shrinks_trans with (1 := Hx).
  destruct Hx as (q & -> & _).
  now apply (np_clip1_exact t q).
Qed.

Lemma Rabs_div_ge1 (q y : R) : (1 <= y)%R -> (Rabs (q / y) <= Rabs q)%R.
Proof.
  intros Hy. unfold Rdiv. rewrite Rabs_mult, (Rabs_right (/ y)).
  - rewrite <- (Rmult_1_r (Rabs q)) at 2.
    apply Rmult_le_compat_l; [apply Rabs_pos|].
    rewrite <- Rinv_1. apply Rinv_le_contravar; lra.
  - apply Rle_ge. left. apply Rinv_0_lt_compat. lra.
Qed.

(** Dividing a finite [c] by the factor [norm / threshold] of
    [clip_by_l2_norm], taken when [threshold < norm] and the threshold is
    not negative. *)
Lemma scale_exact (tn N : xreal) (q : R) :
  xltb tn (XFin 0) = false -> xltb tn N = true ->
  shrinks (XFin q) (xdiv (XFin q) (xdiv N tn)).
Proof.
  intros Hneg Hlt. unfold shrinks.
  destruct tn as [|s|t]; simpl in *; try discriminate.
  - destruct s; [discriminate|]. destruct N as [|s'|n]; discriminate.
  - apply Rltb_false in Hneg.
    destruct N as [|s'|n]; simpl in *; try discriminate.
    + exists 0%R. split; [reflexivity|]. intros ? [= <-].
      rewrite Rabs_R0. apply Rabs_pos.
    + apply Rltb_true in Hlt.
      destruct (Reqb t 0) eqn:Et.
      * apply Reqb_true in Et. subst t.
        assert (En : Reqb n 0 = false) by (apply Reqb_false; lra).
        rewrite En. exists 0%R. split; [reflexivity|].
        intros ? [= <-]. rewrite Rabs_R0. apply Rabs_pos.
      * apply Reqb_false in Et.
        assert (Hy : (1 <= n / t)%R).
        { apply Rmult_le_reg_r with t; [lra|].
          unfold Rdiv. rewrite Rmult_assoc, Rinv_l by auto. lra. }
        assert (En : Reqb (n / t) 0 = false) by (apply Reqb_false; lra).
        rewrite En. eexists. split; [reflexivity|].
        intros ? [= <-]. now apply Rabs_div_ge1.
Qed.

Lemma scale_all_exact (tn N : xreal) (w : list xreal) :
  xltb tn (XFin 0) = false -> xltb tn N = true ->
  Forall2 shrinks w (map (fun g => xdiv g (xdiv N tn)) (nan_to_num w)).
Proof.
  intros Hneg Hlt. unfold nan_to_num. rewrite map_map.
  induction w as [|x w IH]; simpl; constructor; auto.
  destruct (nan_to_num1_exact x) as [Hx _].
  apply shrinks_trans with (1 := Hx).
  destruct Hx as (q & -> & _).
  now apply scale_exact.
Qed.

Lemma nan_to_num_exact (w : list xreal) : Forall2 shrinks w (nan_to_num w).
Proof.
  unfold nan_to_num.
  induction w as [|x w IH]; simpl; constructor; auto.
  apply nan_to_num1_exact.
Qed.

Lemma clip_by_l2_norm_exact (norm : list xreal -> xreal)
    (w : list xreal) (tn : xreal) :
  xltb tn (XFin 0) = false ->
  Forall2 shrinks w (clip_by_l2_norm norm w tn).
Proof.
  intros Hneg. unfold clip_by_l2_norm.
  set (N := norm (nan_to_num w)). simpl fltb.
  destruct (xltb tn N) eqn:Hlt.
  - now apply scale_all_exact.
  - apply nan_to_num_exact.
Qed.

Lemma Forall2_shrinks_trans (u v w : list xreal) :
  Forall2 shrinks u v -> Forall2 shrinks v w -> Forall2 shrinks u w.
Proof.
  intros Huv. revert w. induction Huv; intros w Hvw; inversion Hvw; subst;
    constructor; eauto using shrinks_trans.
Qed.

Lemma Forall2_shrinks_no_nan (u v : list xreal) :
  Forall2 shrinks u v -> existsb xis_nan v = false.
Proof.
  induction 1 as [|x y u v (r & -> & _) _ IH]; simpl; auto.
Qed.

(** ** The norm of a clipped gradient, in exact arithmetic *)

Lemma Forall2_shrinks_finite (u v : list xreal) :
  Forall2 shrinks u v -> exists l, v = map XFin l.
Proof.
  induction 1 as [|x y u v (r & -> & _) _ [l ->]].
  - now exists [].
  - now exists (r :: l).
Qed.

Lemma sum_squares_fold (l : list R) (a : R) :
  fold_left (fun acc x => xadd acc (xmul x x)) (map XFin l) (XFin a)
  = XFin (fold_left (fun acc x => acc + x * x)%R l a).
Proof.
  revert a. induction l as [|x l IH]; intros a; simpl; auto.
Qed.

Lemma Rsum_squares_nonneg (l : list R) (a : R) :
  (0 <= a)%R -> (0 <= fold_left (fun acc x => acc + x * x)%R l a)%R.
Proof.
  revert a. induction l as [|x l IH]; intros a Ha; simpl; auto.
  apply IH. nra.
Qed.

Lemma Rsum_squares_scaled (l : list R) (c a : R) :
  fold_left (fun acc x => acc + x * x)%R (map (fun q => q * c)%R l) (a * (c * c))%R
  = (fold_left (fun acc x => acc + x * x)%R l a * (c * c))%R.
Proof.
  revert a. induction l as [|x l IH]; intros a; simpl; auto.
  rewrite <- IH. f_equal. ring.
Qed.

Lemma l2_norm_model_exact (l : list R) :
  l2_norm_model (map XFin l)
  = XFin (R_sqrt.sqrt (fold_left (fun acc x => acc + x * x)%R l 0%R)).
Proof.
  unfold l2_norm_model, sum_squares. simpl.
  rewrite sum_squares_fold. simpl.
  assert (Hs := Rsum_squares_nonneg l (a := 0%R) (Rle_refl 0)).
  replace (Rltb _ 0) with false; auto.
  symmetry. now apply Rltb_false.
Qed.

Lemma scaled_norm (l : list R) (c : R) :
  (0 <= c)%R ->
  l2_norm_model (map XFin (map (fun q => q * c)%R l))
  = XFin (R_sqrt.sqrt (fold_left (fun acc x => acc + x * x)%R l 0%R) * c).
Proof.
  intros Hc. rewrite l2_norm_model_exact. f_equal.
  replace 0%R with (0 * (c * c))%R at 1 by ring.
  rewrite Rsum_squares_scaled.
  rewrite sqrt_mult_alt by (apply Rsum_squares_nonneg; lra).
  now rewrite sqrt_square.
Qed.

Lemma clip_by_l2_norm_bound (w : list xreal) (tn : xreal) :
  xleb (XFin 0) tn = true ->
  xleb (l2_norm_model (clip_by_l2_norm l2_norm_model w tn)) tn = true.
Proof.
  intros Ht. unfold clip_by_l2_norm.
  destruct (Forall2_shrinks_finite (nan_to_num_exact w)) as [l ->].
  rewrite l2_norm_model_exact.
  set (n := R_sqrt.sqrt _).
  assert (Hn : (0 <= n)%R) by apply sqrt_pos.
  destruct tn as [|s|t]; simpl in Ht; try discriminate.
  - destruct s; [discriminate|]. cbn [fltb exact xltb].
    now rewrite l2_norm_model_exact.
  - apply Rleb_true in Ht. cbn [fltb exact xltb].
    destruct (Rltb t n) eqn:Hlt.
    + apply Rltb_true in Hlt. rewrite map_map.
      assert (E : exists c, (0 <= c)%R /\ (n * c <= t)%R /\
                  forall q, xdiv (XFin q) (xdiv (XFin n) (XFin t)) = XFin (q * c)).
      { simpl. destruct (Reqb t 0) eqn:Et.
        - apply Reqb_true in Et. subst t.
          assert (En : Reqb n 0 = false) by (apply Reqb_false; lra).
          rewrite En. exists 0%R. repeat split; try lra.
          intros q. f_equal. ring.
        - apply Reqb_false in Et.
          assert (Hnt : (0 < n / t)%R) by (apply Rdiv_lt_0_compat; lra).
          assert (En : Reqb (n / t) 0 = false) by (apply Reqb_false; lra).
          rewrite En. exists (t / n)%R. repeat split.
          + apply Rlt_le, Rdiv_lt_0_compat; lra.
          + right. field. lra.
          + intros q. f_equal. field. lra. }
      destruct E as (c & Hc & Hb & Hq).
      rewrite (map_ext _ (fun q => XFin (q * c)) Hq), <- map_map.
      rewrite scaled_norm by assumption. simpl. now apply Rleb_true.
    + apply Rltb_false in Hlt. rewrite l2_norm_model_exact. simpl.
      now apply Rleb_true.
Qed.

Lemma clip_by_l2_norm_ext {F} `{NpFloat F} (f g : list F -> F)
    (v : list F) (t : F) :
  (forall w, f w = g w) -> clip_by_l2_norm f v t = clip_by_l2_norm g v t.
Proof. intros E. unfold clip_by_l2_norm. now rewrite E. Qed.

(** ** C4 *)

Section ClipGradientExact.
Variables scheme_attrs gradient_fn decay_obj : Type.
Variable l2_norm : list xreal -> bool -> xreal.
Variable self : StochasticOptimizer (F:=xreal) scheme_attrs gradient_fn decay_obj.

Lemma clip_gradient_shrinks (v : list xreal) :
  xltb (clip_by_l2_norm_threshold self) (XFin 0) = false ->
  exists w, Forall2 shrinks w (clip_gradient l2_norm self v) /\
            w = clip_by_value v (clip_by_value_threshold self).
Proof.
  intros Hn. eexists. split; [|reflexivity].
  unfold clip_gradient. now apply clip_by_l2_norm_exact.
Qed.


(** ** C9 *)

End ClipGradientExact.

(* ================================================================== *)
(** * The optimizer on concrete inputs *)

(** One step of the minimisation of [x^2] from 3 with learning rate 0.1,
    on doubles: the new parameter is [3 - 0.1 * 6]. *)
Example quadratic_first_step :
  fst (quadratic_next (quadratic_optimizer PrimFloat.infinity PrimFloat.infinity))
  = Returned [2.4%float].
Proof. vm_compute. reflexivity. Qed.

Lemma next_when_done_stops_witness :
  done finished_optimizer = true /\
  quadratic_next finished_optimizer = (Raised StopIteration, finished_optimizer).
Proof.
  split; [reflexivity|].
  apply (next_when_done_stops l2_norm_spec l1_norm_spec relative_change_spec
           quadratic_gradient no_decay plain_scheme finished_optimizer).
  reflexivity.
Defined.

Lemma next_done_flag_witness :
  let self := quadratic_optimizer PrimFloat.infinity PrimFloat.infinity in
  let self' := snd (quadratic_next self) in
  quadratic_next self = (Returned [2.4%float], self') /\
  exists old l2 l1,
    current_variational_parameters self = Some old /\
    current_variational_parameters self' = Some [2.4%float] /\
    rel_l2_change self' = Some l2 /\
    l2 = relative_change_spec old [2.4%float] (fun x => l2_norm_spec x true) /\
    rel_l1_change self' = Some l1 /\
    l1 = relative_change_spec old [2.4%float] (fun x => l1_norm_spec x true) /\
    (done self' = true <->
     ((l2 <=? rel_l2_change_threshold self')%np = true /\
      (l1 <=? rel_l1_change_threshold self')%np = true) \/
     (max_iteration self' <= iteration self')%Z).
Proof.
  intros self self'.
  assert (E : quadratic_next self = (Returned [2.4%float], self'))
    by (vm_compute; reflexivity).
  split; [exact E|].
  exact (next_done_flag l2_norm_spec l1_norm_spec relative_change_spec
           quadratic_gradient no_decay plain_scheme self E).
Defined.


(** ** Clipping on concrete inputs *)

Example clip_by_value_binary64 :
  clip_by_value [3; -5; nan; infinity; 0.5]%float 2%float
  = [2; -2; 0; 2; 0.5]%float.
Proof. vm_compute. reflexivity. Qed.

Example clip_by_l2_norm_binary64 :
  clip_by_l2_norm l2_norm_model [3; 4]%float 2.5%float = [1.5; 2]%float.
Proof. vm_compute. reflexivity. Qed.





(* ================================================================== *)
(** * Properties of the BMFMC statistics *)

Section BMFMCFacts.
Context {F : Type} `{NpFloat F}.
Variables hf_model bmfmc_interface : Type.
Variable hf_evaluate : hf_model -> list (list F) -> list (list F) * hf_model.
Variable interface_evaluate :
  bmfmc_interface -> list (list F) -> list F * list (list F).
Variable norm_pdf : F -> F -> F -> F.
Variables np_exp np_log : F -> F.
Abbreviation bmfmc := (BMFMCModel (F:=F) hf_model bmfmc_interface).

(** ** The posterior mean *)

Lemma zip_with_map_map {A B C D} (f : B -> C -> D) (g : A -> B) (h : A -> C)
    (l : list A) :
  zip_with f (map g l) (map h l) = map (fun a => f (g a) (h a)) l.
Proof. induction l as [|a l IH]; simpl; congruence. Qed.

(** Summing the rows [map (row p) support] column by column is summing,
    at each support point, over the rows. *)
Lemma sum_rows_pointwise {P} (row : P -> F -> F) (support : list F)
    (params : list P) (start : F -> F) :
  fold_left (fun acc r => zip_with fadd acc r)
            (map (fun p => map (row p) support) params) (map start support)
  = map (fun y => fold_left (fun acc p => acc + row p y)%np params (start y))
        support.
Proof.
  revert start. induction params as [|p params IH]; intros start; simpl.
  - reflexivity.
  - rewrite zip_with_map_map. apply (IH (fun y => start y + row p y)%np).
Qed.

Lemma zeros_map (support : list F) :
  zeros (length support) = map (fun _ => fzero) support.
Proof. unfold zeros. induction support; simpl; congruence. Qed.

Lemma fold_zip_pair_sqrt (f : F -> F -> F) (ms vs : list F) (a : F) :
  fold_left (fun acc p => acc + (let '(loc, scale) := p in f loc scale))%np
            (zip_with pair ms (map fsqrt vs)) a
  = fold_left (fun acc '(m, v) => acc + f m (fsqrt v))%np (combine ms vs) a.
Proof.
  revert vs a. induction ms as [|m ms IH]; intros [|v vs] a; simpl; auto.
Qed.

(** C2.  With [n >= 1] evaluation points, each with a predicted mean and a
    predicted variance, [_calculate_p_yhf_mean] returns and sets
    [p_yhf_mean], at every support point [y], to [1 / n] times the sum
    over the points of [norm.pdf(y, loc=m_i, scale=sqrt(v_i))]. *)
Theorem calculate_p_yhf_mean_is_mixture (self : bmfmc) :
  length (var_y_mc self) = length (m_f_mc self) ->
  (1 <= length (m_f_mc self))%nat ->
  _calculate_p_yhf_mean norm_pdf self
  = Returned
      (set_p_yhf_mean self
         (map (fun y =>
                 fof_Z 1 / fof_Z (Z.of_nat (length (m_f_mc self)))
                 * gaussian_sum norm_pdf (m_f_mc self) (var_y_mc self) y)%np
              (y_pdf_support self))).
Proof.
  intros Hlen Hn. unfold _calculate_p_yhf_mean.
  rewrite broadcast2_same_length by (now rewrite length_map).
  simpl bind.
  destruct (Z.of_nat (length (m_f_mc self)) =? 0)%Z eqn:E;
    [apply Z.eqb_eq in E; lia|].
  do 2 f_equal. unfold sum_axis0. rewrite zeros_map.
  rewrite (map_ext (fun '(loc, scale) => map (fun y => norm_pdf y loc scale)
                                             (y_pdf_support self))
                   (fun p => map (fun y => let '(loc, scale) := p in
                                           norm_pdf y loc scale)
                                 (y_pdf_support self)))
    by (now intros [loc scale]).
  rewrite (sum_rows_pointwise
             (fun p y => let '(loc, scale) := p in norm_pdf y loc scale)).
  rewrite map_map. apply map_ext. intros y. f_equal.
  unfold gaussian_sum.
  exact (fold_zip_pair_sqrt (fun loc scale => norm_pdf y loc scale) _ _ _).
Qed.

(** ** Fewer than two evaluation points *)

(** C10, amended.  With the predictive-variance flag set and exactly one
    evaluation point, the body of the pairwise loop never runs:
    [compute_pyhf_statistics] returns, and the object it leaves differs
    from the one it was given in [p_yhf_mean] only, so [p_yhf_var] keeps
    its prior value. *)
Theorem compute_pyhf_statistics_single_point (self : bmfmc) :
  predictive_var_bool self = true ->
  length (m_f_mc self) = 1%nat ->
  exists mean,
    compute_pyhf_statistics interface_evaluate norm_pdf np_exp np_log self
    = Returned (set_p_yhf_mean self mean) /\
    p_yhf_var (set_p_yhf_mean self mean) = p_yhf_var self.
Proof.
  intros Hflag Hn. unfold compute_pyhf_statistics, _calculate_p_yhf_mean.
  destruct (m_f_mc self) as [|m [|m' ms]] eqn:Em; try discriminate.
  destruct (broadcast2 pair [m] (map fsqrt (var_y_mc self))) as [params|e] eqn:Eb.
  - simpl bind. eexists. split; [|reflexivity].
    simpl predictive_var_bool. rewrite Hflag.
    unfold _calculate_p_yhf_var. simpl interface. simpl Z_mc.
    destruct (interface_evaluate _ _) as [unused k_post].
    simpl m_f_mc. rewrite Em. simpl var_y_mc.
    destruct (var_y_mc self) as [|v vs]; reflexivity.
  - exfalso. unfold broadcast2 in Eb.
    destruct (Nat.eqb _ _); discriminate.
Qed.

(** ** The high-fidelity training data *)

Lemma rows_equal_zip (r row : list F) :
  length r = length row ->
  forallb (fun b => b) (zip_with feqb r row) = rows_equal r row.
Proof.
  revert row. induction r as [|a r IH]; intros [|b row] E; simpl in *;
    try discriminate; auto.
  now rewrite IH by lia.
Qed.

Lemma where_all_equal_first (X : list (list F)) (row : list F) (index : nat) :
  (forall r, In r X -> length r = length row) ->
  exists idxs,
    where_all_equal X row index = Returned idxs /\
    first idxs = match first_equal_row X row index with
                 | Some i => Returned i
                 | None => Raised IndexError
                 end.
Proof.
  revert index. induction X as [|r X IH]; intros index Hlen; simpl.
  - now exists [].
  - rewrite broadcast2_same_length by (apply Hlen; now left).
    destruct (IH (S index)) as (rest & Erest & Hfirst);
      [intros; apply Hlen; now right|].
    simpl bind. rewrite Erest. simpl bind.
    rewrite rows_equal_zip by (apply Hlen; now left).
    destruct (rows_equal r row); eexists; (split; [reflexivity|]); auto.
Qed.

Lemma mapM_raised {A B} (f : A -> outcome B) (l : list A) (e : exn) :
  mapM f l = Raised e -> exists a, In a l /\ f a = Raised e.
Proof.
  induction l as [|a l IH]; simpl; [discriminate|].
  destruct (f a) as [b|e'] eqn:Ea; simpl.
  - destruct (mapM f l) as [bs|e'']; simpl; [discriminate|].
    intros [= <-]. destruct (IH eq_refl) as (a' & Hin & Ha').
    exists a'. split; [now right|assumption].
  - intros [= <-]. exists a. split; [now left|assumption].
Qed.

Lemma where_all_equal_raised (X : list (list F)) (row : list F) (index : nat)
    (e : exn) :
  where_all_equal X row index = Raised e -> e = ValueError_broadcast.
Proof.
  revert index. induction X as [|r X IH]; intros index; simpl; [discriminate|].
  destruct (broadcast2 feqb r row) as [eqs|e'] eqn:Eb; simpl.
  - destruct (where_all_equal X row (S index)) as [rest|e''] eqn:Er; simpl;
      [discriminate|].
    intros [= <-]. exact (IH _ Er).
  - intros [= <-]. unfold broadcast2 in Eb.
    destruct (Nat.eqb _ _); [discriminate|].
    destruct r as [|a [|a' r]], row as [|b [|b' row]]; try discriminate;
      now injection Eb.
Qed.

(** The lookup in the reference data raises nothing but an [IndexError]
    or a broadcasting [ValueError]. *)
Lemma reference_lookup_errors (self : bmfmc) (hf : option hf_model)
    (x_train : list (list F)) (y_hf_mc : list F) :
  (_ <- mapM (fun row => first row) x_train ;;
   index_rows <-
     mapM (fun row => idx <- where_all_equal (X_mc self) row 0 ;; first idx)
          x_train ;;
   y <- mapM (fun index => getitem y_hf_mc index) index_rows ;;
   Returned (set_Y_HF_train self hf (map (fun v => [v]) y)))
  <> Raised RuntimeError_hf_source.
Proof.
  destruct (mapM (fun row => first row) x_train) as [col|e] eqn:E0; simpl.
  - destruct (mapM (fun row => idx <- where_all_equal (X_mc self) row 0 ;;
                                first idx) x_train) as [ir|e] eqn:E1; simpl.
    + destruct (mapM (fun index => getitem y_hf_mc index) ir)
        as [ys|e] eqn:E2; simpl; [discriminate|].
      apply mapM_raised in E2. destruct E2 as (i & _ & Ei).
      unfold getitem in Ei. destruct (nth_error y_hf_mc i); congruence.
    + apply mapM_raised in E1. destruct E1 as (row & _ & Er).
      destruct (where_all_equal (X_mc self) row 0) as [idx|e'] eqn:Ew;
        simpl in Er.
      * destruct idx; simpl in Er; congruence.
      * apply where_all_equal_raised in Ew. congruence.
  - apply mapM_raised in E0. destruct E0 as (row & _ & Er).
    destruct row; simpl in Er; congruence.
Qed.

Lemma lookup_matched (self : bmfmc) (y_hf_mc : list F) (x_train : list (list F)) :
  (forall row, In row x_train ->
     (forall r, In r (X_mc self) -> length r = length row) /\
     exists y, matched self y_hf_mc row y) ->
  exists index_rows ys,
    mapM (fun row => idx <- where_all_equal (X_mc self) row 0 ;; first idx)
         x_train = Returned index_rows /\
    mapM (fun index => getitem y_hf_mc index) index_rows = Returned ys /\
    Forall2 (matched self y_hf_mc) x_train ys.
Proof.
  induction x_train as [|row x_train IH]; intros Hrows.
  - exists [], []. repeat split; constructor.
  - destruct (Hrows row (or_introl eq_refl)) as (Hlen & y & index & Hfirst & Hy).
    destruct IH as (index_rows & ys & E1 & E2 & Hall);
      [intros; apply Hrows; now right|].
    destruct (where_all_equal_first (X_mc self) row 0 Hlen)
      as (idxs & Ew & Hidx).
    rewrite Hfirst in Hidx.
    exists (index :: index_rows), (y :: ys). simpl.
    rewrite Ew. simpl bind. rewrite Hidx. simpl bind. rewrite E1. simpl bind.
    unfold getitem at 1. rewrite Hy. simpl bind. rewrite E2. simpl bind.
    repeat split; auto. constructor; auto. now exists index.
Qed.

Lemma first_column (x_train : list (list F)) :
  (forall row, In row x_train -> row <> []) ->
  exists col, mapM (fun row => first row) x_train = Returned col.
Proof.
  induction x_train as [|row x_train IH]; intros Hne; simpl.
  - now exists [].
  - destruct row as [|a row]; [now destruct (Hne [] (or_introl eq_refl))|].
    destruct IH as (col & ->); [intros; apply Hne; now right|].
    simpl. now eexists.
Qed.


(** ** The posterior variance *)

Lemma pairs_count_from (n i d : nat) :
  (i + d = n)%nat ->
  (2 * length (flat_map (fun i => map (pair i) (seq (S i) (n - S i))) (seq i d))
   = d * (d - 1))%nat.
Proof.
  revert i. induction d as [|d IH]; intros i E; simpl; [reflexivity|].
  rewrite length_app, length_map, length_seq.
  specialize (IH (S i) ltac:(lia)).
  replace (n - S i)%nat with d by lia. nia.
Qed.

Lemma pairs_count (n : nat) : (2 * length (pairs n) = n * (n - 1))%nat.
Proof. apply pairs_count_from. reflexivity. Qed.

Lemma skipn_cons_nth {A} (l : list A) (j : nat) (x : A) :
  nth_error l j = Some x -> skipn j l = x :: skipn (S j) l.
Proof.
  revert j. induction l as [|a l IH]; intros [|j] E; simpl in *;
    try discriminate.
  - now injection E as ->.
  - now apply IH.
Qed.

Lemma combine_skipn {A B} (u : list A) (v : list B) (k : nat) :
  combine (skipn k u) (skipn k v) = skipn k (combine u v).
Proof.
  revert u v. induction k as [|k IH]; intros [|a u] [|b v]; simpl; auto.
  now destruct (skipn k u).
Qed.

Lemma nth_error_combine (ms vs : list F) (j : nat) :
  length vs = length ms -> (j < length ms)%nat ->
  nth_error (combine ms vs) j = Some (nth j ms fzero, nth j vs fzero).
Proof.
  revert vs j. induction ms as [|m ms IH]; intros [|v vs] [|j] E Hj;
    simpl in *; try discriminate; try lia; auto.
  apply IH; lia.
Qed.

Lemma zip_with_map2 {A B C D E} (f : C -> D -> E) (g : A -> C) (h : B -> D)
    (u : list A) (v : list B) :
  zip_with f (map g u) (map h v) = zip_with (fun a b => f (g a) (h b)) u v.
Proof.
  revert v. induction u as [|a u IH]; intros [|b v]; simpl; congruence.
Qed.

Lemma pair_density_length (support : list F) (m1 v1 m2 v2 c : F) :
  length (pair_density np_exp np_log support m1 v1 m2 v2 c) = length support.
Proof.
  unfold pair_density.
  destruct (fltb _ _); apply length_map.
Qed.

Lemma accumulated_length (support ms vs : list F) (k : list (list F))
    (ps : list (nat * nat)) :
  length (accumulated np_exp np_log support ms vs k ps) = length support.
Proof.
  unfold accumulated.
  assert (G : forall g, length g = length support ->
            length (fold_left
                      (fun grid ij =>
                         zip_with fadd grid
                           (pair_term np_exp np_log support ms vs k ij))
                      ps g) = length support).
  { induction ps as [|[i j] ps IH]; intros g Hg; simpl; auto.
    apply IH. rewrite zip_with_length; auto.
    unfold pair_term. now rewrite pair_density_length. }
  apply G. apply repeat_length.
Qed.

Section VarianceLoop.
Variable self : bmfmc.
Variable mean : list F.
Variable k_post : list (list F).
Variable n : nat.
Hypothesis Hms : length (m_f_mc self) = n.
Hypothesis Hvs : length (var_y_mc self) = n.
Hypothesis Hmean : p_yhf_mean self = Some mean.
Hypothesis Hmean_len : length mean = length (y_pdf_support self).
Hypothesis Hk :
  forall i j, (i < j < n)%nat ->
    exists row c, nth_error k_post i = Some row /\ nth_error row (j - 1) = Some c.

Abbreviation after := (state_after np_exp np_log self mean k_post).

Lemma state_after_model (ps : list (nat * nat)) :
  p_yhf_mean (model (after ps)) = Some mean /\
  y_pdf_support (model (after ps)) = y_pdf_support self /\
  forall v, set_p_yhf_var (model (after ps)) v = set_p_yhf_var self v.
Proof. destruct ps; simpl; auto. Qed.

(** One run of the loop body, for the pair [(i, j)]. *)
Lemma var_body_step (ps : list (nat * nat)) (i j : nat) :
  (i < j < n)%nat ->
  var_body np_exp np_log k_post (after ps) i
           (nth i (m_f_mc self) fzero) (nth i (var_y_mc self) fzero)
           (j - (i + 1))
           (nth j (m_f_mc self) fzero) (nth j (var_y_mc self) fzero)
  = Returned (after (ps ++ [(i, j)])).
Proof.
  intros Hij. unfold var_body.
  destruct (Hk Hij) as (row & c & Hrow & Hc).
  replace (i + (j - (i + 1)))%nat with (j - 1)%nat by lia.
  unfold getitem. rewrite Hrow. cbn [bind]. rewrite Hc. cbn [bind].
  destruct (state_after_model ps) as (Hm & Hy & Hset).
  rewrite Hy, Hm.
  change (yhf_pdf_grid (after ps))
    with (accumulated np_exp np_log (y_pdf_support self) (m_f_mc self)
            (var_y_mc self) k_post ps).
  change (counter (after ps)) with (1 + Z.of_nat (length ps))%Z.
  rewrite broadcast2_same_length
    by (now rewrite accumulated_length, pair_density_length).
  cbn [bind].
  replace (1 + Z.of_nat (length ps) + 1 - 1)%Z
    with (Z.of_nat (length (ps ++ [(i, j)])))
    by (rewrite length_app; simpl length; lia).
  destruct (Z.of_nat (length (ps ++ [(i, j)])) =? 0)%Z eqn:E0;
    [apply Z.eqb_eq in E0; rewrite length_app in E0; simpl in E0; lia|].
  assert (Hgrid :
    zip_with fadd
      (accumulated np_exp np_log (y_pdf_support self) (m_f_mc self)
         (var_y_mc self) k_post ps)
      (pair_density np_exp np_log (y_pdf_support self)
         (nth i (m_f_mc self) fzero) (nth i (var_y_mc self) fzero)
         (nth j (m_f_mc self) fzero) (nth j (var_y_mc self) fzero) c)
    = accumulated np_exp np_log (y_pdf_support self) (m_f_mc self)
        (var_y_mc self) k_post (ps ++ [(i, j)])).
  { unfold accumulated. rewrite fold_left_app. cbn [fold_left].
    unfold pair_term. do 2 f_equal.
    rewrite (nth_error_nth k_post i [] Hrow).
    symmetry. now apply nth_error_nth. }
  rewrite Hgrid.
  rewrite broadcast2_same_length
    by (now rewrite !length_map, accumulated_length).
  cbn [bind]. rewrite zip_with_map2, Hset. f_equal.
  unfold state_after. f_equal.
  - rewrite length_app. simpl length. lia.
  - destruct ps; reflexivity.
Qed.

Lemma var_inner_loop_run (i : nat) (d : nat) :
  forall (j : nat) (ps : list (nat * nat)),
    (j + d = n)%nat -> (i < j)%nat ->
    var_inner_loop np_exp np_log k_post (after ps) i
      (nth i (m_f_mc self) fzero) (nth i (var_y_mc self) fzero)
      (j - (i + 1)) (skipn j (combine (m_f_mc self) (var_y_mc self)))
    = Returned (after (ps ++ map (pair i) (seq j d))).
Proof.
  induction d as [|d IH]; intros j ps Hj Hij.
  - rewrite skipn_all2 by (rewrite length_combine; lia).
    simpl. now rewrite app_nil_r.
  - assert (Hnth := nth_error_combine (m_f_mc self) (var_y_mc self) (j := j)
                      ltac:(lia) ltac:(lia)).
    rewrite (skipn_cons_nth _ j Hnth).
    cbn [var_inner_loop]. rewrite var_body_step by lia. cbn [bind].
    replace (S (j - (i + 1))) with (S j - (i + 1))%nat by lia.
    rewrite IH by lia. cbn [seq map].
    now rewrite <- app_assoc.
Qed.

Lemma var_outer_loop_run (d : nat) :
  forall (i : nat) (ps : list (nat * nat)),
    (i + d = n)%nat ->
    var_outer_loop np_exp np_log k_post (m_f_mc self) (var_y_mc self)
      (after ps) i (skipn i (combine (m_f_mc self) (var_y_mc self)))
    = Returned
        (after (ps ++ flat_map (fun i => map (pair i) (seq (S i) (n - S i)))
                               (seq i d))).
Proof.
  induction d as [|d IH]; intros i ps Hi.
  - rewrite skipn_all2 by (rewrite length_combine; lia).
    simpl. now rewrite app_nil_r.
  - assert (Hnth := nth_error_combine (m_f_mc self) (var_y_mc self) (j := i)
                      ltac:(lia) ltac:(lia)).
    rewrite (skipn_cons_nth _ i Hnth).
    cbn [var_outer_loop]. rewrite combine_skipn.
    pose proof (@var_inner_loop_run i (n - S i) (i + 1)%nat ps
                  ltac:(lia) ltac:(lia)) as Hin.
    replace (i + 1 - (i + 1))%nat with 0%nat in Hin by lia.
    rewrite Hin. cbn [bind].
    rewrite IH by lia. cbn [seq flat_map].
    replace (i + 1)%nat with (S i) by lia.
    now rewrite <- app_assoc.
Qed.
End VarianceLoop.


End BMFMCFacts.

(* ================================================================== *)
(** * The BMFMC statistics on concrete inputs *)

(** Two evaluation points with unit variances and the posterior
    covariance [[1, 0.5], [0.5, 1]], on the support [0.5]. *)
Definition two_points {F} `{NpFloat F} : BMFMCModel (F:=F) unit (list (list F)) :=
  bmfmc_model [fof_Z 0; fof_Z 0] [fof_Z 1; fof_Z 1]
    [[fof_Z 1; flit 1 2]; [flit 1 2; fof_Z 1]] [flit 1 2] true.

Lemma calculate_p_yhf_mean_is_mixture_witness :
  let self : BMFMCModel (F:=xreal) unit (list (list xreal)) := two_points in
  (1 <= length (m_f_mc self))%nat /\
  _calculate_p_yhf_mean xnorm_pdf self
  = Returned
      (set_p_yhf_mean self
         (map (fun y =>
                 fof_Z 1 / fof_Z (Z.of_nat (length (m_f_mc self)))
                 * gaussian_sum xnorm_pdf (m_f_mc self) (var_y_mc self) y)%np
              (y_pdf_support self))).
Proof.
  intros self. split; [simpl; lia|].
  apply (calculate_p_yhf_mean_is_mixture xnorm_pdf self).
  - reflexivity.
  - simpl. lia.
Defined.

Lemma compute_pyhf_statistics_single_point_witness :
  let self : BMFMCModel (F:=xreal) unit (list (list xreal)) :=
    bmfmc_model [XFin 0] [XFin 1] [[XFin 1]] [XFin 0] true in
  length (m_f_mc self) = 1%nat /\
  exists mean,
    compute_pyhf_statistics (@stored_covariance xreal) xnorm_pdf xexp xlog self
    = Returned (set_p_yhf_mean self mean) /\
    p_yhf_var (set_p_yhf_mean self mean) = p_yhf_var self.
Proof.
  intros self. split; [reflexivity|].
  apply (compute_pyhf_statistics_single_point (@stored_covariance xreal)
           xnorm_pdf xexp xlog self); reflexivity.
Defined.

(** C10 as stated fails without any evaluation point: the posterior mean
    divides by [m_f_mc.size = 0]. *)
Lemma compute_pyhf_statistics_no_point :
  compute_pyhf_statistics (@stored_covariance xreal) xnorm_pdf xexp xlog
    (bmfmc_model [] [] [] [XFin 0] true)
  = Raised ZeroDivisionError.
Proof. reflexivity. Qed.


(** ** The training data on concrete inputs *)



(** A row that holds a NaN equals no row, not even itself. *)
Example get_hf_training_data_nan_row :
  get_hf_training_data no_hf_model
    (reference_model [[PrimFloat.nan]] [[PrimFloat.nan]] [5%float])
  = Raised IndexError.
Proof. reflexivity. Qed.

(** ** C5: a singular pair *)

Lemma float_add_nan_l (x : float) : PrimFloat.add PrimFloat.nan x = PrimFloat.nan.
Proof.
  apply Prim2SF_inj. rewrite FloatAxioms.add_spec.
  change (Prim2SF PrimFloat.nan) with S754_nan. reflexivity.
Qed.

(** C5, at the failing input.  For the pair (0, 1) of [two_points] the
    loop body reads [k_post[0][0] = 1] as the covariance, the determinant
    [1 * 1 - 1 ** 2] is zero and not negative, [1 / det_sigma] is infinite
    and the argument of [np.exp] is NaN: the pair adds [exp(NaN)] to the
    grid, whatever [np.exp] and [np.log] are. *)
Theorem pair_density_singular (np_exp np_log : float -> float) :
  pair_term np_exp np_log (y_pdf_support two_points) (m_f_mc two_points)
            (var_y_mc two_points) (interface two_points) (0%nat, 1%nat)
  = [np_exp PrimFloat.nan].
Proof.
  vm_compute. rewrite !float_add_nan_l. reflexivity.
Qed.

(* ================================================================== *)
(** * Further properties: clipping on IEEE-754 doubles *)

Lemma SFcompare_refl (x : spec_float) :
  x <> S754_nan -> SFcompare x x = Some Eq.
Proof.
  destruct x as [s|s| |s m e]; simpl; intros Hx; try congruence.
  - now destruct s.
  - destruct s; rewrite Z.compare_refl, Pos.compare_cont_refl; reflexivity.
Qed.

Lemma float_is_nan_spec (x : float) :
  PrimFloat.is_nan x = match Prim2SF x with S754_nan => true | _ => false end.
Proof.
  unfold PrimFloat.is_nan. rewrite FloatAxioms.eqb_spec. unfold SFeqb.
  destruct (Prim2SF x) eqn:E; try reflexivity;
    rewrite SFcompare_refl by discriminate; reflexivity.
Qed.

Lemma float_ltb_leb (x y : float) :
  PrimFloat.ltb x y = true -> PrimFloat.leb x y = true.
Proof.
  rewrite FloatAxioms.ltb_spec, FloatAxioms.leb_spec. unfold SFltb, SFleb.
  destruct (SFcompare _ _) as [[]|]; auto.
Qed.

Lemma float_leb_refl (x : float) :
  PrimFloat.is_nan x = false -> PrimFloat.leb x x = true.
Proof.
  rewrite float_is_nan_spec, FloatAxioms.leb_spec. unfold SFleb. intros Hx.
  rewrite SFcompare_refl; [reflexivity|]. intros E. now rewrite E in Hx.
Qed.

(** A double that is neither NaN nor an infinity. *)
Definition float_finite (x : float) : Prop :=
  PrimFloat.is_nan x = false /\
  PrimFloat.eqb x PrimFloat.infinity = false /\
  PrimFloat.eqb x PrimFloat.neg_infinity = false.

Lemma float_finite_spec (x : float) :
  float_finite x ->
  (exists s, Prim2SF x = S754_zero s) \/ (exists s m e, Prim2SF x = S754_finite s m e).
Proof.
  intros (Hn & Hp & Hm).
  rewrite float_is_nan_spec in Hn.
  rewrite FloatAxioms.eqb_spec in Hp, Hm.
  change (Prim2SF PrimFloat.infinity) with (S754_infinity false) in Hp.
  change (Prim2SF PrimFloat.neg_infinity) with (S754_infinity true) in Hm.
  destruct (Prim2SF x) as [s|s| |s m e]; try discriminate; eauto.
  destruct s; discriminate.
Qed.

Lemma nan_to_num_all_finite (v : list float) :
  Forall float_finite (nan_to_num v).
Proof.
  unfold nan_to_num. apply Forall_map. apply Forall_forall. intros x _.
  unfold nan_to_num1, float_finite. simpl.
  destruct (PrimFloat.is_nan x) eqn:En; [now vm_compute|].
  destruct (PrimFloat.eqb x PrimFloat.infinity) eqn:Ep; [now vm_compute|].
  match goal with
  | |- context [if ?c then _ else x] => destruct c eqn:Em
  end; [now vm_compute|].
  repeat split; assumption.
Qed.

Lemma nan_to_num1_finite_id (x : float) :
  float_finite x -> nan_to_num1 x = x.
Proof.
  intros (Hn & Hp & Hm). unfold nan_to_num1. simpl.
  rewrite Hn, Hp.
  unfold PrimFloat.neg_infinity in Hm. now rewrite Hm.
Qed.

Lemma nan_to_num_twice (v : list float) :
  nan_to_num (nan_to_num v) = nan_to_num v.
Proof.
  pose proof (nan_to_num_all_finite v) as Hf.
  induction Hf as [|x w Hx _ IH]; simpl; [reflexivity|].
  f_equal; [now apply nan_to_num1_finite_id|exact IH].
Qed.

(** X1.  [np.nan_to_num] on doubles: every entry of the result is finite
    (not NaN, not an infinity), and applying it again changes nothing. *)
Theorem nan_to_num_finite_idempotent (v : list float) :
  Forall float_finite (nan_to_num v) /\
  nan_to_num (nan_to_num v) = nan_to_num v.
Proof. split; [apply nan_to_num_all_finite|apply nan_to_num_twice]. Qed.

Lemma float_between_infinities (y : float) :
  float_finite y ->
  PrimFloat.ltb PrimFloat.neg_infinity y = true /\
  PrimFloat.ltb y PrimFloat.infinity = true.
Proof.
  intros Hy. rewrite !FloatAxioms.ltb_spec.
  change (Prim2SF PrimFloat.infinity) with (S754_infinity false).
  change (Prim2SF PrimFloat.neg_infinity) with (S754_infinity true).
  destruct (float_finite_spec Hy) as [[s ->]|(s & m & e & ->)]; split; reflexivity.
Qed.

Lemma float_nothing_above_infinity (x : float) :
  PrimFloat.ltb PrimFloat.infinity x = false.
Proof.
  rewrite FloatAxioms.ltb_spec.
  change (Prim2SF PrimFloat.infinity) with (S754_infinity false).
  destruct (Prim2SF x) as [s|[]| |s m e]; reflexivity.
Qed.

Lemma np_clip1_infinite_bounds (y : float) :
  float_finite y ->
  np_clip1 PrimFloat.neg_infinity PrimFloat.infinity y = y.
Proof.
  intros Hy. destruct (float_between_infinities Hy) as [Hlo Hhi].
  destruct Hy as (Hn & _ & _).
  unfold np_clip1, np_maximum, np_minimum. simpl.
  rewrite Hn. change (PrimFloat.is_nan PrimFloat.neg_infinity) with false.
  rewrite Hlo, Hn. change (PrimFloat.is_nan PrimFloat.infinity) with false.
  now rewrite Hhi.
Qed.

Section DefaultThresholds.
Variables scheme_attrs gradient_fn decay_obj : Type.
Variable l2_norm : list float -> bool -> float.
Variable self : StochasticOptimizer (F:=float) scheme_attrs gradient_fn decay_obj.

(** With the default thresholds of [__init__], [np.inf] for both,
    [clip_gradient] on doubles clips nothing: it returns
    [np.nan_to_num(gradient)], whatever [l2_norm] computes. *)
Theorem clip_gradient_default_thresholds (gradient : list float) :
  clip_by_value_threshold self = PrimFloat.infinity ->
  clip_by_l2_norm_threshold self = PrimFloat.infinity ->
  clip_gradient l2_norm self gradient = nan_to_num gradient.
Proof.
  intros Hv Hn. unfold clip_gradient, clip_by_l2_norm, clip_by_value.
  rewrite Hv, Hn. simpl fltb. rewrite float_nothing_above_infinity.
  assert (E : np_clip (nan_to_num gradient) (- PrimFloat.infinity)%np
                      PrimFloat.infinity = nan_to_num gradient).
  { pose proof (nan_to_num_all_finite gradient) as Hf.
    unfold np_clip. induction Hf as [|y w Hy _ IH]; simpl; [reflexivity|].
    f_equal; [|exact IH].
    exact (np_clip1_infinite_bounds Hy). }
  rewrite E. apply nan_to_num_twice.
Qed.
End DefaultThresholds.

Lemma clip_gradient_default_thresholds_witness :
  let self := quadratic_optimizer PrimFloat.infinity PrimFloat.infinity in
  clip_gradient l2_norm_spec self [3; PrimFloat.nan; PrimFloat.neg_infinity]%float
  = nan_to_num [3; PrimFloat.nan; PrimFloat.neg_infinity]%float.
Proof.
  intros self.
  apply (clip_gradient_default_thresholds l2_norm_spec self); reflexivity.
Defined.

(** ** The range of [clip_by_value] *)

Lemma float_opp_not_nan (t : float) :
  PrimFloat.is_nan t = false -> PrimFloat.is_nan (PrimFloat.opp t) = false.
Proof.
  rewrite !float_is_nan_spec, FloatAxioms.opp_spec.
  now destruct (Prim2SF t).
Qed.

Lemma float_leb_not_nan (x y : float) :
  PrimFloat.leb x y = true ->
  PrimFloat.is_nan x = false /\ PrimFloat.is_nan y = false.
Proof.
  rewrite FloatAxioms.leb_spec, !float_is_nan_spec. unfold SFleb.
  destruct (Prim2SF x), (Prim2SF y); simpl; auto; discriminate.
Qed.

Lemma float_leb_opp_self (t : float) :
  PrimFloat.leb PrimFloat.zero t = true ->
  PrimFloat.leb (PrimFloat.opp t) t = true.
Proof.
  rewrite !FloatAxioms.leb_spec, FloatAxioms.opp_spec.
  change (Prim2SF PrimFloat.zero) with (S754_zero false).
  unfold SFleb.
  destruct (Prim2SF t) as [s|[]| |[] m e]; simpl; auto.
Qed.

(** X3.  On doubles and for a threshold [0 <= t] ([t] may be infinite),
    every entry [c] of [clip_by_value(gradient, t)] satisfies
    [-t <= c <= t], whatever the gradient holds (NaN and infinities
    included). *)
Theorem clip_by_value_within_threshold (gradient : list float) (t : float) :
  PrimFloat.leb PrimFloat.zero t = true ->
  Forall (fun c => PrimFloat.leb (PrimFloat.opp t) c = true /\
                   PrimFloat.leb c t = true)
         (clip_by_value gradient t).
Proof.
  intros Ht.
  destruct (@float_leb_not_nan _ _ Ht) as [_ Hnt].
  pose proof (@float_opp_not_nan _ Hnt) as Hno.
  pose proof (@float_leb_opp_self _ Ht) as Hot.
  unfold clip_by_value, np_clip. apply Forall_map.
  pose proof (nan_to_num_all_finite gradient) as Hf.
  induction Hf as [|y w (Hy & _ & _) _ IH]; constructor; [|exact IH].
  unfold np_clip1, np_maximum, np_minimum. simpl.
  rewrite Hy, Hno.
  destruct (PrimFloat.ltb (PrimFloat.opp t) y) eqn:Hlo.
  - rewrite Hy, Hnt.
    destruct (PrimFloat.ltb y t) eqn:Hhi.
    + split; now apply float_ltb_leb.
    + split; [exact Hot|now apply float_leb_refl].
  - rewrite Hno, Hnt.
    destruct (PrimFloat.ltb (PrimFloat.opp t) t) eqn:Hhi.
    + split; [now apply float_leb_refl|exact Hot].
    + split; [exact Hot|now apply float_leb_refl].
Qed.

Lemma clip_by_value_within_threshold_witness :
  Forall (fun c => PrimFloat.leb (PrimFloat.opp 2) c = true /\
                   PrimFloat.leb c 2 = true)
         (clip_by_value [3; -5; PrimFloat.nan; PrimFloat.infinity; 0.5]%float
                        2%float).
Proof.
  apply (@clip_by_value_within_threshold
           [3; -5; PrimFloat.nan; PrimFloat.infinity; 0.5]%float 2%float).
  reflexivity.
Defined.

(* ================================================================== *)
(** * Further properties: the optimizer step and the optimization run *)

Lemma broadcast2_raised {A B} (f : A -> A -> B) (u v : list A) (e : exn) :
  broadcast2 f u v = Raised e -> e = ValueError_broadcast.
Proof.
  unfold broadcast2. destruct (Nat.eqb _ _); [discriminate|].
  destruct u as [|a [|a' u]], v as [|b [|b' v]]; try discriminate;
    now intros [= <-].
Qed.

Section OptimizerRunFacts.
Context {F : Type} `{NpFloat F}.
Variables scheme_attrs gradient_fn decay_obj : Type.
Abbreviation optimizer' :=
  (StochasticOptimizer (F:=F) scheme_attrs gradient_fn decay_obj).
Variable l2_norm : list F -> bool -> F.
Variable l1_norm : list F -> bool -> F.
Variable relative_change : list F -> list F -> (list F -> F) -> F.
Variable gradient_call : gradient_fn -> list F -> list F * gradient_fn.
Variable decay_call : decay_obj -> F -> list F -> list F -> F * decay_obj.
Variable scheme_specific_gradient : optimizer' -> list F -> list F * scheme_attrs.

Abbreviation step :=
  (__next__ l2_norm l1_norm relative_change gradient_call decay_call
            scheme_specific_gradient).

Ltac step_cases :=
  repeat match goal with
         | |- context [match ?x with _ => _ end] => destruct x eqn:?
         end.

(** What one call of [__next__] does to the attributes the class never
    assigns, to the counter and to the log of gradient calls. *)
Lemma step_inversion (self : optimizer') :
  let r := step self in
  (fst r = Raised StopIteration -> done self = true) /\
  (clip_by_l2_norm_threshold (snd r) = clip_by_l2_norm_threshold self /\
   clip_by_value_threshold (snd r) = clip_by_value_threshold self /\
   max_iteration (snd r) = max_iteration self /\
   precoefficient (snd r) = precoefficient self /\
   rel_l2_change_threshold (snd r) = rel_l2_change_threshold self /\
   rel_l1_change_threshold (snd r) = rel_l1_change_threshold self) /\
  (iteration (snd r) = iteration self \/
   iteration (snd r) = (iteration self + 1)%Z) /\
  (forall p, fst r = Returned p ->
     iteration (snd r) = (iteration self + 1)%Z /\
     current_variational_parameters (snd r) = Some p /\
     done (snd r) = true \/
     iteration (snd r) = (iteration self + 1)%Z /\
     current_variational_parameters (snd r) = Some p /\
     done (snd r) = false /\ (iteration (snd r) < max_iteration self)%Z) /\
  (gradient_calls (snd r) = gradient_calls self \/
   exists p, done self = false /\
             current_variational_parameters self = Some p /\
             gradient_calls (snd r) = p :: gradient_calls self).
Proof.
  unfold __next__, do_single_iteration, _check_if_done, _compute_rel_change.
  destruct (done self) eqn:Hd; [simpl; intuition discriminate|].
  destruct (current_variational_parameters self) as [p|] eqn:Hp;
    [|simpl; intuition discriminate].
  destruct (gradient self) as [g|]; [|simpl; intuition discriminate].
  destruct (gradient_call g p) as [cg g'].
  set (self1 := record_gradient_call self g' p).
  set (self2 := match learning_rate_decay self1 with Some _ => _ | None => _ end).
  assert (E2 :
    clip_by_l2_norm_threshold self2 = clip_by_l2_norm_threshold self /\
    clip_by_value_threshold self2 = clip_by_value_threshold self /\
    max_iteration self2 = max_iteration self /\
    precoefficient self2 = precoefficient self /\
    rel_l2_change_threshold self2 = rel_l2_change_threshold self /\
    rel_l1_change_threshold self2 = rel_l1_change_threshold self /\
    iteration self2 = iteration self /\
    current_variational_parameters self2 = Some p /\
    gradient_calls self2 = p :: gradient_calls self).
  { subst self2. destruct (learning_rate_decay self1);
      [destruct (decay_call _ _ _ _)|]; simpl; auto 10. }
  destruct E2 as (E21 & E22 & E23 & E24 & E25 & E26 & E27 & E28 & E29).
  destruct (scheme_specific_gradient self2 _) as [cg3 s'].
  cbn [current_variational_parameters set_current_gradient_value].
  rewrite E28.
  destruct (broadcast2 fadd p _) as [p'|e] eqn:Eb; cbn -[Z.add Z.leb].
  - destruct (existsb fis_nan p') eqn:En; cbn -[Z.add Z.leb].
    + rewrite E21, E22, E23, E24, E25, E26, E27, E29.
      split; [discriminate|]. split; [auto 10|]. split; [auto|].
      split; [discriminate|].
      right. exists p. auto.
    + destruct (fleb _ _); [destruct (fleb _ _)|]; cbn -[Z.add Z.leb];
        rewrite ?E21, ?E22, ?E23, ?E24, ?E25, ?E26, ?E27, ?E29;
        (split; [discriminate|]); (split; [auto 10|]); (split; [auto|]);
        (split; [|right; exists p; auto]);
        intros q [= <-];
        try (left; now auto);
        (destruct (Z.leb _ _) eqn:El;
         [left; rewrite ?orb_true_r; auto
         |right; apply Z.leb_gt in El; rewrite ?orb_false_r;
          repeat split; auto; lia]).
  - apply broadcast2_raised in Eb. subst e.
    rewrite E21, E22, E23, E24, E25, E26, E27, E29.
    split; [discriminate|]. split; [auto 10|]. split; [auto|].
    split; [discriminate|].
    right. exists p. auto.
Qed.

(** X4.  A call of [__next__], whatever its outcome, leaves the clipping
    thresholds, [max_iteration], the sign [precoefficient] and the two
    convergence thresholds as they were. *)
Theorem step_keeps_configuration (self : optimizer') :
  clip_by_l2_norm_threshold (snd (step self)) = clip_by_l2_norm_threshold self /\
  clip_by_value_threshold (snd (step self)) = clip_by_value_threshold self /\
  max_iteration (snd (step self)) = max_iteration self /\
  precoefficient (snd (step self)) = precoefficient self /\
  rel_l2_change_threshold (snd (step self)) = rel_l2_change_threshold self /\
  rel_l1_change_threshold (snd (step self)) = rel_l1_change_threshold self.
Proof. exact (proj1 (proj2 (step_inversion self))). Qed.

(** X5.  [iteration] never decreases: a call of [__next__] leaves it or
    adds one, and a call that returns has added exactly one. *)
Theorem step_counts_iterations (self : optimizer') :
  (iteration self <= iteration (snd (step self)) <= iteration self + 1)%Z /\
  (forall p, fst (step self) = Returned p ->
     iteration (snd (step self)) = (iteration self + 1)%Z).
Proof.
  destruct (step_inversion self) as (_ & _ & Hit & Hret & _). split.
  - destruct Hit as [-> | ->]; lia.
  - intros p Hp. destruct (Hret p Hp) as [(E & _)|(E & _)]; exact E.
Qed.

(** X6.  A call of [__next__] on an optimizer that is not done and has
    parameters and a gradient function calls the gradient function
    exactly once, at the parameters of before the update, also when the
    call ends in an exception. *)
Theorem step_calls_gradient_once (self : optimizer') (p : list F)
    (g : gradient_fn) :
  done self = false ->
  current_variational_parameters self = Some p ->
  gradient self = Some g ->
  gradient_calls (snd (step self)) = p :: gradient_calls self.
Proof.
  intros Hd Hp Hg.
  destruct (step_inversion self) as (_ & _ & _ & _ & Hlog).
  unfold __next__ in *. rewrite Hd, Hp, Hg in *.
  destruct Hlog as [Hsame | (q & _ & [= <-] & Hq)]; [|exact Hq].
  exfalso. revert Hsame.
  unfold do_single_iteration, _check_if_done, _compute_rel_change.
  destruct (gradient_call g p) as [cg g'].
  set (self1 := record_gradient_call self g' p).
  set (self2 := match learning_rate_decay self1 with Some _ => _ | None => _ end).
  assert (E2 : current_variational_parameters self2 = Some p /\
               gradient_calls self2 = p :: gradient_calls self).
  { subst self2. destruct (learning_rate_decay self1);
      [destruct (decay_call _ _ _ _)|]; simpl; auto. }
  destruct E2 as (E28 & E29).
  destruct (scheme_specific_gradient self2 _) as [cg3 s'].
  cbn [current_variational_parameters set_current_gradient_value].
  rewrite E28.
  assert (Hne : forall l : list (list F), p :: l <> l).
  { intros l E. apply (f_equal (@length _)) in E. simpl in E. lia. }
  destruct (broadcast2 fadd p _) as [p'|e]; cbn -[Z.add Z.leb].
  - destruct (existsb fis_nan p'); cbn -[Z.add Z.leb].
    + rewrite E29. apply Hne.
    + destruct (fleb _ _); [destruct (fleb _ _)|]; cbn -[Z.add Z.leb];
        rewrite E29; apply Hne.
  - rewrite E29. apply Hne.
Qed.

(** ** [run_optimization] *)

Abbreviation loop :=
  (for_in_self l2_norm l1_norm relative_change gradient_call decay_call
               scheme_specific_gradient).
Abbreviation run :=
  (run_optimization l2_norm l1_norm relative_change gradient_call decay_call
                    scheme_specific_gradient).

Lemma loop_done (self : optimizer') (fuel : nat) :
  done self = true -> loop (S fuel) self = Some (Returned tt, self).
Proof.
  intros Hd. cbn [for_in_self]. unfold __next__. now rewrite Hd.
Qed.

Lemma loop_terminates (k : nat) :
  forall (self : optimizer') (fuel : nat),
    (Z.to_nat (max_iteration self - iteration self) <= k)%nat ->
    (k + 2 <= fuel)%nat ->
    loop fuel self <> None.
Proof.
  induction k as [|k IH]; intros self fuel Hk Hfuel;
    (destruct fuel as [|fuel]; [lia|]);
    cbn [for_in_self];
    pose proof (step_inversion self) as (_ & Hcfg & _ & Hret & _);
    destruct (step self) as [[p|e] self'] eqn:Es; simpl fst in *; simpl snd in *;
    try (destruct e; discriminate).
  - destruct fuel as [|fuel]; [lia|].
    destruct (Hret p eq_refl) as [(_ & _ & Hd)|(Hit & _ & _ & Hlt)].
    + rewrite loop_done by exact Hd. discriminate.
    + lia.
  - destruct (Hret p eq_refl) as [(_ & _ & Hd)|(Hit & _ & _ & Hlt)].
    + destruct fuel as [|fuel]; [lia|].
      rewrite loop_done by exact Hd. discriminate.
    + apply IH; [|lia].
      destruct Hcfg as (_ & _ & Hmax & _). rewrite Hmax, Hit. lia.
Qed.

(** X7.  [run_optimization] ends: after at most
    [max(max_iteration - iteration, 0) + 2] calls of [__next__] the loop
    has met [StopIteration] or another exception, whatever the gradient
    function, the scheme and the decay return. *)
Theorem run_optimization_terminates (self : optimizer') (fuel : nat) :
  (Z.to_nat (max_iteration self - iteration self) + 2 <= fuel)%nat ->
  run fuel self <> None.
Proof.
  intros Hfuel. unfold run_optimization, __iter__.
  pose proof (@loop_terminates _ self fuel (Nat.le_refl _) Hfuel) as Hl.
  destruct (loop fuel self) as [[[[]|e] self']|]; congruence.
Qed.

Lemma loop_returned (fuel : nat) :
  forall (self self' : optimizer'),
    loop fuel self = Some (Returned tt, self') ->
    done self' = true /\
    max_iteration self' = max_iteration self /\
    (iteration self <= iteration self')%Z /\
    (done self = true -> self' = self).
Proof.
  induction fuel as [|fuel IH]; intros self self'; cbn [for_in_self];
    [discriminate|].
  pose proof (step_inversion self) as (Hstop & Hcfg & Hit & _ & _).
  destruct (step self) as [[p|e] s1] eqn:Es; simpl fst in *; simpl snd in *.
  - intros Hl. destruct (IH _ _ Hl) as (Hd' & Hmax & Hle & _).
    destruct Hcfg as (_ & _ & Hm & _).
    split; [exact Hd'|]. split; [congruence|]. split.
    + destruct Hit as [E|E]; rewrite E in Hle; lia.
    + intros Hd. unfold __next__ in Es. rewrite Hd in Es. discriminate.
  - destruct e; try discriminate. intros [= <-].
    pose proof (Hstop eq_refl) as Hd.
    unfold __next__ in Es. rewrite Hd in Es. injection Es as <-.
    auto with zarith.
Qed.

(** X8.  When [run_optimization] returns, the optimizer is done, the
    value returned is its [current_variational_parameters], the iteration
    count has not gone down, and an optimizer that was done already is
    returned as it was. *)
Theorem run_optimization_returned (fuel : nat) (self self' : optimizer')
    (result : option (list F)) :
  run fuel self = Some (Returned result, self') ->
  done self' = true /\
  result = current_variational_parameters self' /\
  (iteration self <= iteration self')%Z /\
  (done self = true -> self' = self).
Proof.
  unfold run_optimization, __iter__.
  destruct (loop fuel self) as [[[[]|e] s]|] eqn:El; try discriminate.
  intros [= <- <-].
  destruct (loop_returned _ _ El) as (Hd & _ & Hle & Hsame). auto.
Qed.
End OptimizerRunFacts.

(* ================================================================== *)
(** * Further properties: the BMFMC statistics *)

Ltac positive :=
  repeat first
    [ assumption
    | apply PI_RGT_0
    | apply Rinv_0_lt_compat
    | apply Rdiv_lt_0_compat
    | apply Rmult_lt_0_compat
    | apply sqrt_lt_R0
    | lra ].

Ltac decide_tests :=
  repeat match goal with
         | |- context [Reqb ?x 0] =>
             replace (Reqb x 0) with false
               by (symmetry; apply Reqb_false;
                   assert (0 < x)%R by positive; lra)
         | |- context [Rltb ?x 0] =>
             replace (Rltb x 0) with false
               by (symmetry; apply Rltb_false;
                   assert (0 < x)%R by positive; lra)
         end.

(** The loop body once the determinant [D > 0] and the covariance [cv]
    are fixed: every value added to the grid is a real in (0, exp 40]. *)
Lemma pair_density_body_exact (D cv m1 v1 m2 v2 y : R) :
  (0 < D)%R ->
  let s := xdiv (XFin 1) (XFin D) in
  let inv00 := xmul s (XFin v2) in
  let inv01 := xmul s (xneg (XFin cv)) in
  let inv11 := xmul s (XFin v1) in
  let c := xsqrt (xmul (xmul (XFin 4) (xmul (XFin PI) (XFin PI))) (XFin D)) in
  let d1 := xsub (XFin y) (XFin m1) in
  let d2 := xsub (XFin y) (XFin m2) in
  let a1 := xadd (xmul d1 inv00) (xmul d2 inv01) in
  let a2 := xadd (xmul d1 inv01) (xmul d2 inv11) in
  let b := xadd (xmul a1 d1) (xmul a2 d2) in
  let args := xadd (xmul (xneg (flit 1 2)) b)
                   (xlog (xdiv (XFin 1) c)) in
  let args := if xltb (XFin 40) args then XFin 40 else args in
  exists r, xexp args = XFin r /\ (0 < r <= exp 40)%R.
Proof.
  intros HD. cbn -[exp ln PI]. decide_tests. cbn -[exp ln PI].
  decide_tests. cbn -[exp ln PI]. decide_tests. cbn -[exp ln PI].
  match goal with
  | |- context [Rltb 40 ?a] => destruct (Rltb 40 a) eqn:E
  end; cbn -[exp ln PI]; eexists; (split; [reflexivity|]).
  - split; [apply exp_pos|lra].
  - apply Rltb_false in E. split; [apply exp_pos|].
    destruct E as [E|E]; [left; now apply exp_increasing|right; now rewrite E].
Qed.

Lemma flit_exact (n d : Z) :
  IZR d <> 0%R -> flit n d = XFin (IZR n / IZR d).
Proof.
  intros Hd. unfold flit. cbn.
  replace (Reqb (IZR d) 0) with false by (symmetry; now apply Reqb_false).
  reflexivity.
Qed.

(** X9.  In exact arithmetic, for a pair with finite means, variances and
    covariance whose determinant [var1 * var2 - covariance ** 2] is not
    zero, at finite support points: every value the loop body adds to
    the grid is a real number in (0, exp 40]. *)
Theorem pair_density_finite_exact (support : list R) (m1 v1 m2 v2 c : R) :
  (v1 * v2 - c * c <> 0)%R ->
  Forall (fun d => exists r, d = XFin r /\ (0 < r <= exp 40)%R)
         (pair_density xexp xlog (map XFin support)
                       (XFin m1) (XFin v1) (XFin m2) (XFin v2) (XFin c)).
Proof.
  intros Hdet. unfold pair_density.
  cbn [fsub fmul exact xsub xmul xadd xneg fltb fof_Z xltb].
  destruct (Rltb (v1 * v2 + - (c * c)) 0) eqn:E.
  - rewrite (flit_exact 1 1000000), (flit_exact 95 100) by lra.
    cbn [fmul exact xmul].
    apply Forall_map, Forall_map, Forall_forall. intros y _.
    apply (@pair_density_body_exact (1 / 1000000) (95 / 100 * c)
             m1 v1 m2 v2 y). lra.
  - apply Rltb_false in E.
    apply Forall_map, Forall_map, Forall_forall. intros y _.
    apply (@pair_density_body_exact (v1 * v2 + - (c * c)) c
             m1 v1 m2 v2 y). lra.
Qed.

Lemma pair_density_finite_exact_witness :
  Forall (fun d => exists r, d = XFin r /\ (0 < r <= exp 40)%R)
         (pair_density xexp xlog (map XFin [1 / 2]%R)
                       (XFin 0) (XFin 1) (XFin 0) (XFin 1) (XFin (1 / 2))).
Proof.
  apply (@pair_density_finite_exact [1 / 2]%R 0 1 0 1 (1 / 2)). lra.
Defined.

Section BMFMCFurther.
Context {F : Type} `{NpFloat F}.
Variables hf_model bmfmc_interface : Type.
Variable hf_evaluate : hf_model -> list (list F) -> list (list F) * hf_model.
Variable interface_evaluate :
  bmfmc_interface -> list (list F) -> list F * list (list F).
Variable norm_pdf : F -> F -> F -> F.
Variables np_exp np_log : F -> F.
Abbreviation bmfmc' := (BMFMCModel (F:=F) hf_model bmfmc_interface).

Lemma mapM_length {A B} (f : A -> outcome B) (l : list A) (bs : list B) :
  mapM f l = Returned bs -> length bs = length l.
Proof.
  revert bs. induction l as [|a l IH]; intros bs; simpl.
  - now intros [= <-].
  - destruct (f a) as [b|e]; simpl; [|discriminate].
    destruct (mapM f l) as [bs'|e]; simpl; [|discriminate].
    intros [= <-]. simpl. f_equal. now apply IH.
Qed.

(** X10.  When [get_hf_training_data] returns, the object differs from
    the one it was given in [Y_HF_train] and the high-fidelity model only;
    when the data came from the reference outputs, the model is the same
    too and [Y_HF_train] has one row of one entry per row of [X_train]. *)
Theorem get_hf_training_data_frame (self self' : bmfmc') :
  get_hf_training_data hf_evaluate self = Returned self' ->
  exists hf y,
    self' = set_Y_HF_train self hf y /\
    (forall y_hf_mc, Y_HF_mc self = Some y_hf_mc ->
       hf = None /\ high_fidelity_model self = None /\
       exists x_train,
         X_train self = Some x_train /\
         length y = length x_train /\
         Forall (fun row => length row = 1%nat) y).
Proof.
  unfold get_hf_training_data.
  destruct (X_train self) as [x_train|]; [|discriminate].
  destruct (high_fidelity_model self) as [hf|] eqn:Ehf,
           (Y_HF_mc self) as [y_hf_mc|]; try discriminate.
  - destruct (hf_evaluate hf x_train) as [response hf'].
    intros [= <-]. exists (Some hf'), response. split; [reflexivity|].
    discriminate.
  - destruct (mapM (fun row => first row) x_train) as [col|e];
      [|discriminate]. cbn [bind].
    destruct (mapM _ x_train) as [index_rows|e] eqn:E1; [|discriminate].
    cbn [bind].
    destruct (mapM _ index_rows) as [ys|e] eqn:E2; [|discriminate].
    cbn [bind]. intros [= <-].
    exists None, (map (fun v => [v]) ys). split; [reflexivity|].
    intros y0 _. split; [reflexivity|]. split; [reflexivity|].
    exists x_train. split; [reflexivity|]. split.
    + rewrite length_map, (mapM_length _ _ E2). exact (mapM_length _ _ E1).
    + apply Forall_map, Forall_forall. reflexivity.
Qed.
End BMFMCFurther.
